(** * Student Performance Analyzer: filter injection, store checks, KPI fallback

    A shallow embedding of the parts of the dashboard that carry design
    decisions: the two predicate builders ([filter_engine.py],
    [kpi_calculator.py]), the validation done before a table is imported
    ([database_manager.py]), the primary/secondary policy of the four KPI
    recipes and the decoding fallback of [file_manager.py].

    Python text is a sequence of code points.  Where the code only moves text
    around, compares it or changes its case, text is a [string] whose
    characters are read as the code points U+0000..U+00FF; the character
    tables below are Python's on that range.  DuckDB, numpy and the float
    printer are outside the repository and enter as type classes. *)

From Stdlib Require Import ZArith NArith QArith List String Ascii Bool Lia.
From Stdlib Require Import DecimalString.
From Stdlib Require Strings.Byte.
Import ListNotations.

Open Scope string_scope.
Open Scope bool_scope.

(** ** Python text *)

Module PyText.

(** The double quote and the line feed, which a literal here cannot hold
    directly. *)
Definition dq : string := String "034"%char EmptyString.
Definition nl : string := String "010"%char EmptyString.

(** ["..."] around an identifier, as in [f'"{actual_key}"']. *)
Definition quoted (s : string) : string := dq ++ s ++ dq.

Definition code (c : ascii) : N := N_of_ascii c.

Definition between (lo hi : N) (c : ascii) : bool :=
  ((lo <=? code c) && (code c <=? hi))%N.

Definition is_ascii_upper (c : ascii) : bool := between 65 90 c.
Definition is_ascii_lower (c : ascii) : bool := between 97 122 c.
Definition is_ascii_digit (c : ascii) : bool := between 48 57 c.

(** [[A-Za-z0-9_]], the class the specification gives for table names. *)
Definition is_word_char (c : ascii) : bool :=
  is_ascii_upper c || is_ascii_lower c || is_ascii_digit c || (code c =? 95)%N.

(** [str.lower]: A-Z, U+00C0..U+00D6 and U+00D8..U+00DE move up by 32. *)
Definition lower_char (c : ascii) : ascii :=
  if is_ascii_upper c || between 192 214 c || between 216 222 c
  then ascii_of_N (code c + 32) else c.

(** [str.upper]: a-z, U+00E0..U+00F6 and U+00F8..U+00FE move down by 32.
    Python sends three more characters out of the range (U+00B5 to U+039C,
    U+00DF to the two letters SS, U+00FF to U+0178); they are kept in place
    here.  None of the replacements holds a letter of [WHERE], the only text
    ever searched for in an upper-cased query. *)
Definition upper_char (c : ascii) : ascii :=
  if is_ascii_lower c || between 224 246 c || between 248 254 c
  then ascii_of_N (code c - 32) else c.

Fixpoint map_chars (f : ascii -> ascii) (s : string) : string :=
  match s with
  | EmptyString => EmptyString
  | String c s' => String (f c) (map_chars f s')
  end.

Definition lower : string -> string := map_chars lower_char.
Definition upper : string -> string := map_chars upper_char.

(** One character's share of [str.isalnum]: alphabetic, decimal, digit or
    numeric. *)
Definition isalnum_char (c : ascii) : bool :=
  is_ascii_digit c || is_ascii_upper c || is_ascii_lower c
  || (code c =? 170)%N || between 178 179 c || (code c =? 181)%N
  || between 185 186 c || between 188 190 c
  || between 192 214 c || between 216 246 c || between 248 255 c.

Fixpoint all_chars (p : ascii -> bool) (s : string) : bool :=
  match s with
  | EmptyString => true
  | String c s' => p c && all_chars p s'
  end.

Definition is_empty (s : string) : bool :=
  match s with EmptyString => true | _ => false end.

(** The pattern [[A-Za-z0-9_]+] of the NamedTable invariant. *)
Definition matches_identifier_pattern (s : string) : bool :=
  negb (is_empty s) && all_chars is_word_char s.

(** The characters of a text, in order. *)
Definition chars (s : string) : list ascii := list_ascii_of_string s.

(** [str.isalnum]: at least one character and every character alphanumeric. *)
Definition isalnum (s : string) : bool :=
  negb (is_empty s) && all_chars isalnum_char s.

(** [s.replace(old, new)] for a one-character [old]. *)
Fixpoint replace (old : ascii) (new : string) (s : string) : string :=
  match s with
  | EmptyString => EmptyString
  | String c s' =>
      if Ascii.eqb c old then new ++ replace old new s'
      else String c (replace old new s')
  end.

(** [str.isspace] on one character. *)
Definition isspace_char (c : ascii) : bool :=
  between 9 13 c || between 28 32 c || (code c =? 133)%N || (code c =? 160)%N.

Fixpoint lstrip (s : string) : string :=
  match s with
  | EmptyString => EmptyString
  | String c s' => if isspace_char c then lstrip s' else s
  end.

Fixpoint rstrip (s : string) : string :=
  match s with
  | EmptyString => EmptyString
  | String c s' =>
      match rstrip s' with
      | EmptyString => if isspace_char c then EmptyString else String c EmptyString
      | r => String c r
      end
  end.

(** [str.strip] with no argument. *)
Definition strip (s : string) : string := rstrip (lstrip s).

(** Whether some character is not white space. *)
Definition has_nonspace (s : string) : bool := negb (all_chars isspace_char s).

(** [needle in haystack]. *)
Fixpoint contains (needle haystack : string) : bool :=
  prefix needle haystack
  || match haystack with
     | EmptyString => false
     | String _ rest => contains needle rest
     end.

(** [sep.join(parts)]. *)
Definition join (sep : string) (parts : list string) : string :=
  String.concat sep parts.

(** [str(n)] for an [int]. *)
Definition str_int (z : Z) : string := NilZero.string_of_int (Z.to_int z).

End PyText.

Import PyText.

(** ** Filter values *)

(** A [float]: finite values as rationals (every double is one; the sign of
    zero is not tracked), and the three special values. *)
Inductive pyfloat : Type :=
| FFinite (q : Q)
| FNan
| FInf (negative : bool).

(** Numbers.  [bool] is a subclass of [int] in Python, so a boolean is a
    number wherever a number is asked for. *)
Inductive num : Type :=
| NBool (b : bool)
| NInt (z : Z)
| NFloat (f : pyfloat).

(** Scalars: what a filter holds for equality, and the elements of a list. *)
Inductive atom : Type :=
| ANone
| AStr (s : string)
| ANum (n : num).

(** A filter value: a scalar, a [list] of scalars, or a [tuple].  Tuples hold
    numbers, as ranges do in the FilterSpec data model; their length is free. *)
Inductive value : Type :=
| VAtom (a : atom)
| VList (l : list atom)
| VTuple (t : list num).

(** A filter dictionary, in insertion order. *)
Definition filters_t : Type := list (string * value).

Definition VNone : value := VAtom ANone.
Definition VStr (s : string) : value := VAtom (AStr s).
Definition VInt (z : Z) : value := VAtom (ANum (NInt z)).
Definition VBool (b : bool) : value := VAtom (ANum (NBool b)).
Definition VFloat (f : pyfloat) : value := VAtom (ANum (NFloat f)).
Definition VRange (lo hi : num) : value := VTuple [lo; hi].

(** The interpreter's float printer ([repr] of a [float]). *)
Class PyRuntime : Type := {
  float_repr : pyfloat -> string
}.

Module PyValue.

Definition is_none (v : value) : bool :=
  match v with VAtom ANone => true | _ => false end.

Definition isinstance_list (v : value) : bool :=
  match v with VList _ => true | _ => false end.

Definition isinstance_tuple (v : value) : bool :=
  match v with VTuple _ => true | _ => false end.

Definition isinstance_str (v : value) : bool :=
  match v with VAtom (AStr _) => true | _ => false end.

Definition isinstance_bool (v : value) : bool :=
  match v with VAtom (ANum (NBool _)) => true | _ => false end.

(** [isinstance(v, int)] holds for booleans too. *)
Definition isinstance_int (v : value) : bool :=
  match v with
  | VAtom (ANum (NBool _)) | VAtom (ANum (NInt _)) => true
  | _ => false
  end.

Definition isinstance_float (v : value) : bool :=
  match v with VAtom (ANum (NFloat _)) => true | _ => false end.

(** [len(v)] for a list or a tuple (never taken of anything else). *)
Definition len (v : value) : nat :=
  match v with
  | VList l => List.length l
  | VTuple t => List.length t
  | VAtom _ => 0
  end.

Section Formatting.
Context {rt : PyRuntime}.

Definition str_bool (b : bool) : string := if b then "True" else "False".

(** [str(n)], which is what an f-string field prints. *)
Definition str_num (n : num) : string :=
  match n with
  | NBool b => str_bool b
  | NInt z => str_int z
  | NFloat f => float_repr f
  end.

Definition str_atom (a : atom) : string :=
  match a with
  | ANone => "None"
  | AStr s => s
  | ANum n => str_num n
  end.

End Formatting.

(** Numeric order, for [lo > hi]: exact between integers and floats, false
    whenever a NaN is involved. *)
Inductive extended : Type :=
| ENan
| ENegInf
| EFin (q : Q)
| EPosInf.

Definition num_value (n : num) : extended :=
  match n with
  | NBool b => EFin (if b then 1 else 0)
  | NInt z => EFin (inject_Z z)
  | NFloat (FFinite q) => EFin q
  | NFloat FNan => ENan
  | NFloat (FInf true) => ENegInf
  | NFloat (FInf false) => EPosInf
  end.

Definition extended_gt (a b : extended) : bool :=
  match a, b with
  | ENan, _ | _, ENan => false
  | EPosInf, EPosInf => false
  | EPosInf, _ => true
  | _, EPosInf => false
  | ENegInf, _ => false
  | EFin _, ENegInf => true
  | EFin p, EFin q => negb (Qle_bool p q)
  end.

(** [a > b] on numbers. *)
Definition num_gt (a b : num) : bool := extended_gt (num_value a) (num_value b).

Definition extended_le (a b : extended) : bool :=
  match a, b with
  | ENan, _ | _, ENan => false
  | ENegInf, _ => true
  | _, EPosInf => true
  | EPosInf, _ => false
  | EFin _, ENegInf => false
  | EFin p, EFin q => Qle_bool p q
  end.

(** [a <= b] on numbers, the order a well-formed range satisfies. *)
Definition num_le (a b : num) : bool := extended_le (num_value a) (num_value b).

End PyValue.

Import PyValue.

(** ** filter_engine.py *)

Module FilterEngine.

(** The arms of the [if]/[elif] chain of [build_filter_query], in source
    order. *)
Inductive arm : Type :=
| ArmList
| ArmRange
| ArmStr
| ArmNumeric
| ArmBool.

(** The tests of the chain, tried in source order; [None] when no arm fires
    and the entry is dropped. *)
Definition select_arm (v : value) : option arm :=
  if isinstance_list v && (0 <? len v)%nat then Some ArmList
  else if isinstance_tuple v && (len v =? 2)%nat then Some ArmRange
  else if isinstance_str v then Some ArmStr
  else if isinstance_int v || isinstance_float v then Some ArmNumeric
  else if isinstance_bool v then Some ArmBool
  else None.

Section Builder.
Context {rt : PyRuntime}.

(** One element of an [IN] list: [f"'{v}'" if isinstance(v, str) else str(v)]. *)
Definition list_item (a : atom) : string :=
  match a with
  | AStr s => "'" ++ s ++ "'"
  | _ => str_atom a
  end.

(** The f-string of each arm.  An arm is entered only with the shape its test
    established; the last case is never evaluated. *)
Definition arm_text (key : string) (v : value) (a : arm) : string :=
  match a, v with
  | ArmList, VList l =>
      key ++ " IN (" ++ join ", " (map list_item l) ++ ")"
  | ArmRange, VTuple [lo; hi] =>
      key ++ " BETWEEN " ++ str_num lo ++ " AND " ++ str_num hi
  | ArmStr, VAtom (AStr s) =>
      key ++ " = '" ++ s ++ "'"
  | ArmNumeric, VAtom a0 =>
      key ++ " = " ++ str_atom a0
  | ArmBool, VAtom a0 =>
      key ++ " = " ++ str_atom a0
  | _, _ => ""
  end.

(** The body of the loop: what one [(key, value)] appends to [conditions]. *)
Definition entry_conditions (key : string) (v : value) : list string :=
  if is_none v then []
  else match select_arm v with
       | Some a => [arm_text key v a]
       | None => []
       end.

Definition conditions (filters : filters_t) : list string :=
  flat_map (fun kv => entry_conditions (fst kv) (snd kv)) filters.

(** [FilterEngine.build_filter_query]. *)
Definition build_filter_query (filters : filters_t) : string :=
  match filters with
  | [] => ""
  | _ =>
      match conditions filters with
      | [] => ""
      | cs => join " AND " cs
      end
  end.

(** [FilterEngine.apply_filters]. *)
Definition apply_filters (base_query : string) (filters : filters_t) : string :=
  let where_clause := build_filter_query filters in
  if is_empty where_clause then base_query
  else if contains "WHERE" (upper base_query)
       then base_query ++ " AND " ++ where_clause
       else base_query ++ " WHERE " ++ where_clause.

End Builder.

(** The messages [validate_filters] collects for one entry. *)
Definition entry_errors (key : string) (v : value) : list string :=
  if is_none v then []
  else if isinstance_list v then
    if (len v =? 0)%nat then ["Filter '" ++ key ++ "' has empty list"] else []
  else if isinstance_tuple v then
    match v with
    | VTuple [lo; hi] =>
        if num_gt lo hi
        then ["Filter '" ++ key ++ "' range start is greater than end"]
        else []
    | _ => ["Filter '" ++ key ++ "' range must have exactly 2 values"]
    end
  else [].

(** [FilterEngine.validate_filters]: the pair [(is_valid, error_messages)]. *)
Definition validate_filters (filters : filters_t) : bool * list string :=
  let errors := flat_map (fun kv => entry_errors (fst kv) (snd kv)) filters in
  ((List.length errors =? 0)%nat, errors).

End FilterEngine.

(** ** kpi_calculator.py: the filter injector *)

Module KPIFilters.

(** The scan of [available_columns] for the first column equal to [key] once
    both are lower-cased (the [for]/[break] loop): the column found, if any. *)
Fixpoint first_match (key : string) (available_columns : list string)
  : option string :=
  match available_columns with
  | [] => None
  | col :: rest =>
      if (lower col =? lower key)%string then Some col
      else first_match key rest
  end.

(** [actual_key], or [None] when the entry is skipped.  The test
    [if available_columns:] sends both a missing list and an empty one to the
    [else] branch. *)
Definition resolve_column (key : string) (available_columns : option (list string))
  : option string :=
  match available_columns with
  | Some (col :: rest) => first_match key (col :: rest)
  | Some [] | None => Some key
  end.

Section Injector.
Context {rt : PyRuntime}.

(** The [if]/[elif] chain that formats one entry whose column was resolved. *)
Definition condition_for (actual_key key : string) (v : value) : list string :=
  if (key =? "age")%string && isinstance_tuple v && (len v =? 2)%nat then
    match v with
    | VTuple [lo; hi] =>
        [quoted actual_key ++ " BETWEEN " ++ str_num lo ++ " AND " ++ str_num hi]
    | _ => []
    end
  else if isinstance_str v then
    match v with
    | VAtom a => [quoted actual_key ++ " = '" ++ str_atom a ++ "'"]
    | _ => []
    end
  else if isinstance_int v || isinstance_float v then
    match v with
    | VAtom a => [quoted actual_key ++ " = " ++ str_atom a]
    | _ => []
    end
  else [].

(** The body of the loop over [self.filters.items()]. *)
Definition entry_conditions (key : string) (v : value)
  (available_columns : option (list string)) : list string :=
  if is_none v then []
  else match resolve_column key available_columns with
       | None => []
       | Some actual_key => condition_for actual_key key v
       end.

Definition conditions (filters : filters_t)
  (available_columns : option (list string)) : list string :=
  flat_map (fun kv => entry_conditions (fst kv) (snd kv) available_columns) filters.

(** [KPICalculator._apply_filters_to_query], with [self.filters] passed in. *)
Definition _apply_filters_to_query (filters : filters_t) (base_query : string)
  (available_columns : option (list string)) : string :=
  match filters with
  | [] => base_query
  | _ =>
      match conditions filters available_columns with
      | [] => base_query
      | cs =>
          let where_clause := join " AND " cs in
          if contains "WHERE" (upper base_query)
          then base_query ++ " AND " ++ where_clause
          else base_query ++ " WHERE " ++ where_clause
      end
  end.

End Injector.

End KPIFilters.

(** ** Exceptions and the store *)

(** The exceptions the modelled code raises or passes on, each with its
    message.  [ExternalError] is whatever DuckDB or numpy raises. *)
Inductive exn : Type :=
| ValueError (msg : string)
| RuntimeError (msg : string)
| FileEncodingError (msg : string)
| ExternalError (msg : string).

(** [str(e)]. *)
Definition exn_str (e : exn) : string :=
  match e with
  | ValueError m | RuntimeError m | FileEncodingError m | ExternalError m => m
  end.

(** A pandas [DataFrame]: column labels and rows. *)
Record DataFrame : Type := {
  df_columns : list string;
  df_rows : list (list atom)
}.

(** [df.empty]: some axis has length zero. *)
Definition df_empty (df : DataFrame) : bool :=
  (List.length (df_columns df) =? 0)%nat || (List.length (df_rows df) =? 0)%nat.

(** The DuckDB connection: its state and the three calls the manager makes.
    [execute] stands for [connection.execute(q).fetchall()] together with
    [connection.description], packed as the frame [execute_query] builds. *)
Class DuckDB : Type := {
  connection : Type;
  execute : string -> connection -> (exn + DataFrame) * connection;
  register : string -> DataFrame -> connection -> (exn + unit) * connection;
  unregister : string -> connection -> (exn + unit) * connection
}.

(** numpy: [float(np.corrcoef(x, y)[0, 1])], which may raise. *)
Class Numpy : Type := {
  corrcoef_01 : list pyfloat -> list pyfloat -> exn + pyfloat
}.

(** Code that threads the connection and may raise. *)
Module Store.

Section Monad.
Context {db : DuckDB}.

Definition M (A : Type) : Type := connection -> (exn + A) * connection.

Definition ret {A : Type} (a : A) : M A := fun c => (inr a, c).

Definition raise {A : Type} (e : exn) : M A := fun c => (inl e, c).

Definition bind {A B : Type} (m : M A) (k : A -> M B) : M B :=
  fun c =>
    match m c with
    | (inr a, c') => k a c'
    | (inl e, c') => (inl e, c')
    end.

(** [try: m  except Exception as e: handler e]. *)
Definition try_except {A : Type} (m : M A) (handler : exn -> M A) : M A :=
  fun c =>
    match m c with
    | (inr a, c') => (inr a, c')
    | (inl e, c') => handler e c'
    end.

End Monad.

Declare Scope store_scope.
Delimit Scope store_scope with store.
Notation "x <- m ;; k" := (bind m (fun x => k))
  (at level 61, m at next level, right associativity) : store_scope.
Notation "m ;;; k" := (bind m (fun _ => k))
  (at level 61, right associativity) : store_scope.

End Store.

Import Store.
Open Scope store_scope.

(** ** database_manager.py *)

Module DatabaseManager.

(** The second guard of [import_data], on its own:
    [not table_name or not table_name.replace("_", "").isalnum()]. *)
Definition name_refused (table_name : string) : bool :=
  is_empty table_name || negb (isalnum (replace "_"%char "" table_name)).

Section Manager.
Context {db : DuckDB}.

(** [DatabaseManager.import_data]. *)
Definition import_data (df : DataFrame) (table_name : string) (if_exists : string)
  : M unit :=
  if df_empty df then raise (ValueError "Cannot import empty DataFrame")
  else if is_empty table_name || negb (isalnum (replace "_"%char "" table_name))
  then raise (ValueError ("Invalid table name: " ++ table_name))
  else
    try_except
      ((if (if_exists =? "replace")%string
        then (_ <- execute ("DROP TABLE IF EXISTS " ++ table_name) ;; ret tt)
        else ret tt) ;;;
       register table_name df ;;;
       (_ <- execute ("CREATE TABLE " ++ table_name ++ " AS SELECT * FROM " ++ table_name) ;;
        unregister table_name))
      (fun e => raise (RuntimeError
         ("Failed to import data into table '" ++ table_name ++ "': " ++ exn_str e))).

(** [DatabaseManager.execute_query]. *)
Definition execute_query (query : string) : M DataFrame :=
  if is_empty query || is_empty (strip query)
  then raise (ValueError "Query cannot be empty")
  else
    try_except
      (execute query)
      (fun e => raise (RuntimeError ("Query execution failed: " ++ exn_str e))).

(** The statement [get_available_tables] sends. *)
Definition tables_query : string :=
  "SELECT table_name FROM information_schema.tables WHERE table_schema = 'main'".

(** [[row[0] for row in result]]; [None] is the [IndexError] of a row without
    cells. *)
Fixpoint first_cells (rows : list (list atom)) : option (list atom) :=
  match rows with
  | [] => Some []
  | [] :: _ => None
  | (cell :: _) :: rest => option_map (cons cell) (first_cells rest)
  end.

(** [DatabaseManager.get_available_tables].  It calls the connection directly,
    not [execute_query].  The interpreter's [IndexError] is carried with its
    message like the engine's exceptions. *)
Definition get_available_tables : M (list atom) :=
  try_except
    (result <- execute tables_query ;;
     match first_cells (df_rows result) with
     | Some names => ret names
     | None => raise (ExternalError "tuple index out of range")
     end)
    (fun e => raise (RuntimeError ("Failed to retrieve table list: " ++ exn_str e))).

(** [cell == table_name] for a text [table_name]. *)
Definition cell_is (table_name : string) (cell : atom) : bool :=
  match cell with
  | AStr s => (s =? table_name)%string
  | _ => false
  end.

(** [DatabaseManager.table_exists]: the answer and the connection after the
    lookup; [except Exception: return False]. *)
Definition table_exists (table_name : string) (c : connection)
  : bool * connection :=
  match get_available_tables c with
  | (inr tables, c') => (existsb (cell_is table_name) tables, c')
  | (inl _, c') => (false, c')
  end.

End Manager.

End DatabaseManager.

(** ** kpi_calculator.py: the four recipes *)

Module KPICalculator.

Import KPIFilters DatabaseManager.

(** A triple-quoted literal, line by line. *)
Definition lines (ls : list string) : string := join nl ls.

Definition available_cols_habits_1 : list string :=
  ["age"; "gender"; "parental_education_level"; "exam_score"].
Definition available_cols_factors_1 : list string :=
  ["Gender"; "Parental_Education_Level"; "Exam_Score"].

Definition query_habits_1 : string := lines
  [ "";
    "            SELECT ";
    "                gender as group,";
    "                AVG(exam_score) as average_score,";
    "                COUNT(*) as count";
    "            FROM student_habits_performance";
    "            " ].
Definition tail_habits_1 : string := " GROUP BY gender ORDER BY average_score DESC".

Definition query_factors_1 : string := lines
  [ "";
    "                SELECT ";
    "                    " ++ quoted "Gender" ++ " as group,";
    "                    AVG(" ++ quoted "Exam_Score" ++ ") as average_score,";
    "                    COUNT(*) as count";
    "                FROM student_performance_factors";
    "                " ].
Definition tail_factors_1 : string :=
  " GROUP BY " ++ quoted "Gender" ++ " ORDER BY average_score DESC".

Definition available_cols_habits_2 : list string :=
  ["age"; "gender"; "parental_education_level"; "study_hours_per_day"; "exam_score"].
Definition available_cols_factors_2 : list string :=
  ["Gender"; "Parental_Education_Level"; "Hours_Studied"; "Exam_Score"].

Definition query_habits_2 : string := lines
  [ "";
    "            SELECT ";
    "                study_hours_per_day as study_hours,";
    "                exam_score";
    "            FROM student_habits_performance";
    "            WHERE study_hours_per_day IS NOT NULL ";
    "                AND exam_score IS NOT NULL";
    "            " ].
Definition tail_habits_2 : string := " ORDER BY study_hours_per_day".

Definition query_factors_2 : string := lines
  [ "";
    "                SELECT ";
    "                    " ++ quoted "Hours_Studied" ++ " as study_hours,";
    "                    " ++ quoted "Exam_Score" ++ " as exam_score";
    "                FROM student_performance_factors";
    "                WHERE " ++ quoted "Hours_Studied" ++ " IS NOT NULL ";
    "                    AND " ++ quoted "Exam_Score" ++ " IS NOT NULL";
    "                " ].
Definition tail_factors_2 : string := " ORDER BY " ++ quoted "Hours_Studied".

Definition available_cols_habits_3 : list string :=
  ["age"; "gender"; "parental_education_level"; "attendance_percentage"; "exam_score"].
Definition available_cols_factors_3 : list string :=
  ["Gender"; "Parental_Education_Level"; "Attendance"; "Exam_Score"].

Definition query_habits_3 : string := lines
  [ "";
    "            SELECT ";
    "                ROUND(attendance_percentage / 10) * 10 as attendance_range,";
    "                AVG(exam_score) as average_score,";
    "                COUNT(*) as count";
    "            FROM student_habits_performance";
    "            WHERE attendance_percentage IS NOT NULL ";
    "                AND exam_score IS NOT NULL";
    "            " ].
Definition tail_habits_3 : string :=
  " GROUP BY ROUND(attendance_percentage / 10) * 10 ORDER BY attendance_range".

Definition query_factors_3 : string := lines
  [ "";
    "                SELECT ";
    "                    ROUND(" ++ quoted "Attendance" ++ " / 10) * 10 as attendance_range,";
    "                    AVG(" ++ quoted "Exam_Score" ++ ") as average_score,";
    "                    COUNT(*) as count";
    "                FROM student_performance_factors";
    "                WHERE " ++ quoted "Attendance" ++ " IS NOT NULL ";
    "                    AND " ++ quoted "Exam_Score" ++ " IS NOT NULL";
    "                " ].
Definition tail_factors_3 : string :=
  " GROUP BY ROUND(" ++ quoted "Attendance" ++ " / 10) * 10 ORDER BY attendance_range".

Definition available_cols_habits_4 : list string :=
  ["age"; "gender"; "parental_education_level"; "sleep_hours"; "exam_score"].
Definition available_cols_factors_4 : list string :=
  ["Gender"; "Parental_Education_Level"; "Sleep_Hours"; "Exam_Score"].

Definition query_habits_4 : string := lines
  [ "";
    "            SELECT ";
    "                sleep_hours,";
    "                exam_score";
    "            FROM student_habits_performance";
    "            WHERE sleep_hours IS NOT NULL ";
    "                AND exam_score IS NOT NULL";
    "            " ].
Definition tail_habits_4 : string := " ORDER BY sleep_hours".

Definition query_factors_4 : string := lines
  [ "";
    "                SELECT ";
    "                    " ++ quoted "Sleep_Hours" ++ " as sleep_hours,";
    "                    " ++ quoted "Exam_Score" ++ " as exam_score";
    "                FROM student_performance_factors";
    "                WHERE " ++ quoted "Sleep_Hours" ++ " IS NOT NULL ";
    "                    AND " ++ quoted "Exam_Score" ++ " IS NOT NULL";
    "                " ].
Definition tail_factors_4 : string := " ORDER BY " ++ quoted "Sleep_Hours".

Inductive kpi : Type :=
| KPI1
| KPI2
| KPI3
| KPI4.

(** The number a recipe puts in its error message. *)
Definition kpi_number (k : kpi) : string :=
  match k with
  | KPI1 => "1"
  | KPI2 => "2"
  | KPI3 => "3"
  | KPI4 => "4"
  end.

(** The literal, the column list and the tail of each recipe, by number: first
    for [student_habits_performance], then for [student_performance_factors]. *)
Definition habits_query (k : kpi) : string :=
  match k with
  | KPI1 => query_habits_1
  | KPI2 => query_habits_2
  | KPI3 => query_habits_3
  | KPI4 => query_habits_4
  end.

Definition habits_columns (k : kpi) : list string :=
  match k with
  | KPI1 => available_cols_habits_1
  | KPI2 => available_cols_habits_2
  | KPI3 => available_cols_habits_3
  | KPI4 => available_cols_habits_4
  end.

Definition habits_tail (k : kpi) : string :=
  match k with
  | KPI1 => tail_habits_1
  | KPI2 => tail_habits_2
  | KPI3 => tail_habits_3
  | KPI4 => tail_habits_4
  end.

Definition factors_query (k : kpi) : string :=
  match k with
  | KPI1 => query_factors_1
  | KPI2 => query_factors_2
  | KPI3 => query_factors_3
  | KPI4 => query_factors_4
  end.

Definition factors_columns (k : kpi) : list string :=
  match k with
  | KPI1 => available_cols_factors_1
  | KPI2 => available_cols_factors_2
  | KPI3 => available_cols_factors_3
  | KPI4 => available_cols_factors_4
  end.

Definition factors_tail (k : kpi) : string :=
  match k with
  | KPI1 => tail_factors_1
  | KPI2 => tail_factors_2
  | KPI3 => tail_factors_3
  | KPI4 => tail_factors_4
  end.

Section Recipes.
Context {rt : PyRuntime} {db : DuckDB}.

(** The statement an attempt sends: the literal with the filters injected for
    that table's columns, then the grouping and ordering tail. *)
Definition statement (filters : filters_t) (query : string)
  (available_cols : list string) (tail : string) : string :=
  _apply_filters_to_query filters query (Some available_cols) ++ tail.

(** The body the four [calculate_kpi_*] methods share: run the habits
    statement; if the frame is empty run the factors statement; any exception
    raised inside becomes [RuntimeError("Failed to calculate KPI n: ...")]. *)
Definition two_phase (n : string) (filters : filters_t)
  (query_habits : string) (cols_habits : list string) (tail_habits : string)
  (query_factors : string) (cols_factors : list string) (tail_factors : string)
  : M DataFrame :=
  try_except
    (result <- execute_query (statement filters query_habits cols_habits tail_habits) ;;
     if df_empty result
     then execute_query (statement filters query_factors cols_factors tail_factors)
     else ret result)
    (fun e => raise (RuntimeError
       ("Failed to calculate KPI " ++ n ++ ": " ++ exn_str e))).

Definition calculate_kpi_1_scores_by_group (filters : filters_t) : M DataFrame :=
  two_phase "1" filters
    query_habits_1 available_cols_habits_1 tail_habits_1
    query_factors_1 available_cols_factors_1 tail_factors_1.

Definition calculate_kpi_2_study_correlation (filters : filters_t) : M DataFrame :=
  two_phase "2" filters
    query_habits_2 available_cols_habits_2 tail_habits_2
    query_factors_2 available_cols_factors_2 tail_factors_2.

Definition calculate_kpi_3_attendance_impact (filters : filters_t) : M DataFrame :=
  two_phase "3" filters
    query_habits_3 available_cols_habits_3 tail_habits_3
    query_factors_3 available_cols_factors_3 tail_factors_3.

Definition calculate_kpi_4_sleep_performance (filters : filters_t) : M DataFrame :=
  two_phase "4" filters
    query_habits_4 available_cols_habits_4 tail_habits_4
    query_factors_4 available_cols_factors_4 tail_factors_4.

(** The four recipes by number, to state what they share. *)
Definition calculate_kpi (k : kpi) (filters : filters_t) : M DataFrame :=
  match k with
  | KPI1 => calculate_kpi_1_scores_by_group filters
  | KPI2 => calculate_kpi_2_study_correlation filters
  | KPI3 => calculate_kpi_3_attendance_impact filters
  | KPI4 => calculate_kpi_4_sleep_performance filters
  end.

(** The statement a recipe sends first, over [student_habits_performance]. *)
Definition habits_statement (k : kpi) (filters : filters_t) : string :=
  match k with
  | KPI1 => statement filters query_habits_1 available_cols_habits_1 tail_habits_1
  | KPI2 => statement filters query_habits_2 available_cols_habits_2 tail_habits_2
  | KPI3 => statement filters query_habits_3 available_cols_habits_3 tail_habits_3
  | KPI4 => statement filters query_habits_4 available_cols_habits_4 tail_habits_4
  end.

(** The statement it sends second, over [student_performance_factors]. *)
Definition factors_statement (k : kpi) (filters : filters_t) : string :=
  match k with
  | KPI1 => statement filters query_factors_1 available_cols_factors_1 tail_factors_1
  | KPI2 => statement filters query_factors_2 available_cols_factors_2 tail_factors_2
  | KPI3 => statement filters query_factors_3 available_cols_factors_3 tail_factors_3
  | KPI4 => statement filters query_factors_4 available_cols_factors_4 tail_factors_4
  end.

End Recipes.

(** [KPICalculator.calculate_correlation_coefficient]. *)
Definition calculate_correlation_coefficient {np : Numpy} (x y : list pyfloat)
  : exn + pyfloat :=
  if (List.length x <? 2)%nat || (List.length y <? 2)%nat
  then inr (FFinite 0)
  else corrcoef_01 x y.

End KPICalculator.

(** pandas: [pd.read_csv(StringIO(text))], which may raise. *)
Class Pandas : Type := {
  read_csv : string -> exn + DataFrame
}.

(** ** file_manager.py: decoding *)

Module FileManager.

Import Strings.Byte.

(** Raw file content, and decoded text as code points (decoding can leave the
    one-byte range). *)
Definition bytes : Type := list byte.
Definition text : Type := list N.

Definition within (lo hi n : N) : bool := ((lo <=? n) && (n <=? hi))%N.

Definition is_continuation (n : N) : bool := within 128 191 n.

(** The second byte of a three-byte form: E0 and ED narrow it, to keep out
    overlong forms and surrogates. *)
Definition second_of_three (lead n : N) : bool :=
  if (lead =? 224)%N then within 160 191 n
  else if (lead =? 237)%N then within 128 159 n
  else is_continuation n.

(** The second byte of a four-byte form: F0 and F4 narrow it, to keep out
    overlong forms and code points past U+10FFFF. *)
Definition second_of_four (lead n : N) : bool :=
  if (lead =? 240)%N then within 144 191 n
  else if (lead =? 244)%N then within 128 143 n
  else is_continuation n.

(** [bytes.decode("utf-8")], strict: [None] is [UnicodeDecodeError]. *)
Fixpoint utf8_decode (bs : bytes) : option text :=
  match bs with
  | [] => Some []
  | b0 :: r0 =>
      let n0 := to_N b0 in
      if (n0 <? 128)%N then option_map (cons n0) (utf8_decode r0)
      else
        match r0 with
        | [] => None
        | b1 :: r1 =>
            let n1 := to_N b1 in
            if within 194 223 n0 then
              if is_continuation n1
              then option_map (cons ((n0 - 192) * 64 + (n1 - 128))%N) (utf8_decode r1)
              else None
            else
              match r1 with
              | [] => None
              | b2 :: r2 =>
                  let n2 := to_N b2 in
                  if within 224 239 n0 then
                    if second_of_three n0 n1 && is_continuation n2
                    then option_map
                           (cons ((n0 - 224) * 4096 + (n1 - 128) * 64 + (n2 - 128))%N)
                           (utf8_decode r2)
                    else None
                  else
                    match r2 with
                    | [] => None
                    | b3 :: r3 =>
                        let n3 := to_N b3 in
                        if within 240 244 n0 then
                          if second_of_four n0 n1 && is_continuation n2
                             && is_continuation n3
                          then option_map
                                 (cons ((n0 - 240) * 262144 + (n1 - 128) * 4096
                                        + (n2 - 128) * 64 + (n3 - 128))%N)
                                 (utf8_decode r3)
                          else None
                        else None
                    end
              end
        end
  end.

(** [bytes.decode("latin-1")]: each byte is its own code point. *)
Definition latin1_decode (bs : bytes) : option text := Some (map to_N bs).

(** Code page 1252 above 7F and below A0; five bytes are unassigned. *)
Definition cp1252_table : list (option N) :=
  [ Some 8364; None; Some 8218; Some 402; Some 8222; Some 8230; Some 8224;
    Some 8225; Some 710; Some 8240; Some 352; Some 8249; Some 338; None;
    Some 381; None; None; Some 8216; Some 8217; Some 8220; Some 8221;
    Some 8226; Some 8211; Some 8212; Some 732; Some 8482; Some 353;
    Some 8250; Some 339; None; Some 382; Some 376 ]%N.

Definition cp1252_high (n : N) : option N :=
  match nth_error cp1252_table (N.to_nat (n - 128)) with
  | Some r => r
  | None => None
  end.

Definition cp1252_byte (b : byte) : option N :=
  let n := to_N b in
  if within 128 159 n then cp1252_high n else Some n.

(** [bytes.decode("cp1252")]. *)
Fixpoint cp1252_decode (bs : bytes) : option text :=
  match bs with
  | [] => Some []
  | b :: rest =>
      match cp1252_byte b, cp1252_decode rest with
      | Some n, Some t => Some (n :: t)
      | _, _ => None
      end
  end.

(** The codec names of the [encodings] list. *)
Inductive encoding : Type :=
| Utf8
| Latin1
| Iso8859_1
| Cp1252.

Definition encoding_name (e : encoding) : string :=
  match e with
  | Utf8 => "utf-8"
  | Latin1 => "latin-1"
  | Iso8859_1 => "iso-8859-1"
  | Cp1252 => "cp1252"
  end.

(** [file_bytes.decode(encoding)]; [iso-8859-1] is another name of
    [latin-1]. *)
Definition decode (e : encoding) (bs : bytes) : option text :=
  match e with
  | Utf8 => utf8_decode bs
  | Latin1 | Iso8859_1 => latin1_decode bs
  | Cp1252 => cp1252_decode bs
  end.

Definition encodings : list encoding := [Utf8; Latin1; Iso8859_1; Cp1252].

(** The [for]/[try]/[continue] loop: the first codec that decodes wins. *)
Fixpoint first_decoding (encs : list encoding) (file_bytes : bytes) : option text :=
  match encs with
  | [] => None
  | e :: rest =>
      match decode e file_bytes with
      | Some t => Some t
      | None => first_decoding rest file_bytes
      end
  end.

(** [handle_encoding_error], on a [bytes] argument. *)
Definition handle_encoding_error (file_bytes : bytes) : exn + text :=
  match first_decoding encodings file_bytes with
  | Some t => inr t
  | None =>
      inl (FileEncodingError
             ("Could not decode file with any supported encoding: "
              ++ join ", " (map encoding_name encodings)))
  end.

(** A Unicode scalar value: at most U+10FFFF and not a surrogate. *)
Definition scalar (n : N) : Prop :=
  (n <= 1114111 /\ (n < 55296 \/ 57343 < n))%N.

(** [validate_csv_structure]: the pair [(is_valid, error_message)]. *)
Definition validate_csv_structure {pd : Pandas} (file_content : string)
  (required_columns : list string) : bool * string :=
  match read_csv file_content with
  | inl e => (false, "Failed to parse CSV file: " ++ exn_str e)
  | inr df =>
      let df_columns_lower := map lower (df_columns df) in
      let required_lower := map lower required_columns in
      let missing_columns :=
        filter (fun col => negb (existsb (String.eqb col) df_columns_lower))
               required_lower in
      match missing_columns with
      | [] => (true, "")
      | _ => (false, "Missing required columns: " ++ join ", " missing_columns)
      end
  end.

(** [normalize_column_names].  The source assigns [df.columns] in place and
    returns the same frame; here the frame after the assignment. *)
Definition normalize_column_names (df : DataFrame) : DataFrame :=
  {| df_columns := map (fun col => replace " "%char "_" (lower col)) (df_columns df);
     df_rows := df_rows df |}.

(** What [normalize_column_names] does to one label. *)
Definition normalize_name (col : string) : string :=
  replace " "%char "_" (lower col).

(** A character as normalization leaves it: not a space, and its own lower
    case. *)
Definition settled (c : ascii) : bool :=
  negb (Ascii.eqb c " ") && Ascii.eqb (lower_char c) c.

(** [validate_csv_not_empty]. *)
Definition validate_csv_not_empty (df : DataFrame) : bool * string :=
  if (List.length (df_rows df) =? 0)%nat then (false, "CSV file is empty")
  else if (List.length (df_columns df) =? 0)%nat then (false, "CSV file has no columns")
  else (true, "").

End FileManager.

(** ** Instances used to run the model on concrete inputs *)

Module Samples.

(** A float printer for whole numbers (digits, then [.0], as Python prints
    them below 1e16) and the special values; other values print as a
    fraction. *)
Definition whole_number_repr (f : pyfloat) : string :=
  match f with
  | FNan => "nan"
  | FInf true => "-inf"
  | FInf false => "inf"
  | FFinite q =>
      if (Qden q =? 1)%positive then str_int (Qnum q) ++ ".0"
      else str_int (Qnum q) ++ "/" ++ str_int (Zpos (Qden q))
  end.

Definition sample_runtime : PyRuntime := {| float_repr := whole_number_repr |}.

(** A catalogue of named tables standing in for a DuckDB session: a statement
    answers with the table it reads [FROM], and raises the catalog error when
    the catalogue holds no such table. *)
Definition catalogue : Type := list (string * DataFrame).

Definition reads_from (query : string) (entry : string * DataFrame) : bool :=
  contains ("FROM " ++ fst entry) query.

Definition catalogue_execute (query : string) (c : catalogue)
  : (exn + DataFrame) * catalogue :=
  match find (reads_from query) c with
  | Some (_, df) => (inr df, c)
  | None => (inl (ExternalError "Catalog Error: Table does not exist!"), c)
  end.

Definition catalogue_db : DuckDB := {|
  connection := catalogue;
  execute := catalogue_execute;
  register := fun _ _ c => (inr tt, c);
  unregister := fun _ c => (inr tt, c)
|}.

Definition factors_frame : DataFrame := {|
  df_columns := ["Gender"; "Hours_Studied"; "Attendance"; "Sleep_Hours"; "Exam_Score"];
  df_rows :=
    [ [AStr "Male"; ANum (NInt 23); ANum (NInt 84); ANum (NInt 7); ANum (NInt 67)];
      [AStr "Female"; ANum (NInt 19); ANum (NInt 64); ANum (NInt 8); ANum (NInt 61)] ]
|}.

(** A session in which only the factors file was uploaded. *)
Definition factors_only : catalogue :=
  [("student_performance_factors", factors_frame)].

(** A session whose habits table exists without rows, beside the factors
    table. *)
Definition emptied_habits : catalogue :=
  [ ("student_habits_performance",
     {| df_columns := ["gender"; "exam_score"]; df_rows := [] |});
    ("student_performance_factors", factors_frame) ].

(** A connection that accepts every call and answers with no rows. *)
Definition permissive_db : DuckDB := {|
  connection := unit;
  execute := fun _ c => (inr {| df_columns := []; df_rows := [] |}, c);
  register := fun _ _ c => (inr tt, c);
  unregister := fun _ c => (inr tt, c)
|}.

(** A session that answers the catalog listing with its table names, one row
    each, and every other statement with no rows. *)
Definition listing_db : DuckDB := {|
  connection := list string;
  execute := fun query c =>
    if (query =? DatabaseManager.tables_query)%string
    then (inr {| df_columns := ["table_name"];
                 df_rows := map (fun name => [AStr name]) c |}, c)
    else (inr {| df_columns := []; df_rows := [] |}, c);
  register := fun _ _ c => (inr tt, c);
  unregister := fun _ c => (inr tt, c)
|}.

(** A session whose every table exists already, so that each [CREATE TABLE]
    raises; its state records whether [unregister] was ever called. *)
Definition unregister_marks_db : DuckDB := {|
  connection := bool;
  execute := fun query c =>
    if prefix "CREATE TABLE " query
    then (inl (ExternalError
                 "Catalog Error: Table with name students already exists!"), c)
    else (inr {| df_columns := []; df_rows := [] |}, c);
  register := fun _ _ c => (inr tt, c);
  unregister := fun _ _ => (inr tt, true)
|}.

(** A reader that parses every text to the same frame. *)
Definition reads_as (df : DataFrame) : Pandas := {| read_csv := fun _ => inr df |}.

(** A numpy that is never consulted. *)
Definition numpy_unused : Numpy := {|
  corrcoef_01 := fun _ _ => inl (ExternalError "numpy is not modelled")
|}.

End Samples.

(** * Properties *)

(** ** Text search and case mapping *)

Module PyTextFacts.

Lemma prefix_empty (s : string) : prefix "" s = true.
Proof. now destruct s. Qed.

Lemma contains_eq (needle haystack : string) :
  contains needle haystack =
  prefix needle haystack
  || match haystack with
     | EmptyString => false
     | String _ rest => contains needle rest
     end.
Proof. now destruct haystack. Qed.

Lemma contains_prefix (needle haystack : string) :
  prefix needle haystack = true -> contains needle haystack = true.
Proof.
  intros H. rewrite contains_eq, H. reflexivity.
Qed.

Lemma contains_tail (needle : string) (c : ascii) (haystack : string) :
  contains needle haystack = true -> contains needle (String c haystack) = true.
Proof.
  intros H. rewrite contains_eq, H. apply orb_true_r.
Qed.

Lemma contains_cases (needle haystack : string) :
  contains needle haystack = true ->
  prefix needle haystack = true
  \/ exists c rest, haystack = String c rest /\ contains needle rest = true.
Proof.
  rewrite contains_eq. intros H. apply orb_true_iff in H as [H|H].
  - now left.
  - destruct haystack as [|c rest]; [discriminate|]. right. now exists c, rest.
Qed.

Lemma contains_app_left (needle before haystack : string) :
  contains needle haystack = true -> contains needle (before ++ haystack) = true.
Proof.
  intros H. induction before as [|c b IH].
  - exact H.
  - change (String c b ++ haystack) with (String c (b ++ haystack)).
    now apply contains_tail.
Qed.

Lemma prefix_map_chars (f : ascii -> ascii) (p s : string) :
  prefix p s = true -> prefix (map_chars f p) (map_chars f s) = true.
Proof.
  revert s. induction p as [|c p IH]; intros s H.
  - apply prefix_empty.
  - destruct s as [|d s]; simpl in *; [discriminate|].
    destruct (ascii_dec c d) as [->|ne]; [|discriminate].
    destruct (ascii_dec (f d) (f d)) as [_|ne]; [now apply IH | now elim ne].
Qed.

Lemma contains_map_chars (f : ascii -> ascii) (p s : string) :
  contains p s = true -> contains (map_chars f p) (map_chars f s) = true.
Proof.
  induction s as [|d s IH]; intros H;
    apply contains_cases in H as [H|(c & rest & E & H)].
  - apply contains_prefix. now apply (prefix_map_chars f p "").
  - discriminate.
  - apply contains_prefix. now apply (prefix_map_chars f p (String d s)).
  - injection E as -> ->.
    change (map_chars f (String c rest)) with (String (f c) (map_chars f rest)).
    apply contains_tail. now apply IH.
Qed.

(** A prefix of a mapped text is the image of a prefix of the text. *)
Lemma prefix_of_map_chars (f : ascii -> ascii) (p s : string) :
  prefix p (map_chars f s) = true ->
  exists w, map_chars f w = p /\ prefix w s = true.
Proof.
  revert s. induction p as [|c p IH]; intros s H.
  - exists "". split; [reflexivity | apply prefix_empty].
  - destruct s as [|d s]; simpl in H; [discriminate|].
    destruct (ascii_dec c (f d)) as [->|ne]; [|discriminate].
    destruct (IH s H) as (w & Hw & Hp).
    exists (String d w). split.
    + simpl. now rewrite Hw.
    + simpl. destruct (ascii_dec d d) as [_|ne]; [exact Hp | now elim ne].
Qed.

Lemma contains_of_map_chars (f : ascii -> ascii) (p s : string) :
  contains p (map_chars f s) = true ->
  exists w, map_chars f w = p /\ contains w s = true.
Proof.
  induction s as [|d s IH]; intros H;
    apply contains_cases in H as [H|(c & rest & E & H)].
  - destruct (prefix_of_map_chars f p "" H) as (w & Hw & Hp).
    exists w. split; [exact Hw | now apply contains_prefix].
  - discriminate.
  - destruct (prefix_of_map_chars f p (String d s) H) as (w & Hw & Hp).
    exists w. split; [exact Hw | now apply contains_prefix].
  - change (map_chars f (String d s)) with (String (f d) (map_chars f s)) in E.
    injection E as _ <-.
    destruct (IH H) as (w & Hw & Hc).
    exists w. split; [exact Hw | now apply contains_tail].
Qed.

(** ["WHERE" in base_query.upper()] finds exactly the occurrences of the word
    in any mix of cases. *)
Lemma where_search_ignores_case (base_query : string) :
  contains "WHERE" (upper base_query) = true <->
  exists w, upper w = "WHERE" /\ contains w base_query = true.
Proof.
  split.
  - apply contains_of_map_chars.
  - intros (w & Hw & Hc). rewrite <- Hw. now apply contains_map_chars.
Qed.

End PyTextFacts.

Import PyTextFacts.

(** ** The KPI-path injector *)

Module KPIFiltersFacts.

Import KPIFilters Samples.

Lemma prefix_refl (s : string) : prefix s s = true.
Proof.
  induction s as [|c s IH]; simpl; [reflexivity|].
  destruct (ascii_dec c c) as [_|ne]; [exact IH | now elim ne].
Qed.

Lemma contains_suffix (needle before : string) :
  contains needle (before ++ needle) = true.
Proof. apply contains_app_left, contains_prefix, prefix_refl. Qed.

Lemma first_match_sound (key : string) (cols : list string) (col : string) :
  first_match key cols = Some col -> In col cols /\ lower col = lower key.
Proof.
  induction cols as [|c cols IH]; simpl; [discriminate|].
  destruct (lower c =? lower key)%string eqn:E.
  - intros [= <-]. split; [now left | now apply String.eqb_eq].
  - intros H. destruct (IH H). split; [now right | assumption].
Qed.

Lemma first_match_complete (key : string) (cols : list string) (col : string) :
  In col cols -> lower col = lower key ->
  exists col', first_match key cols = Some col'.
Proof.
  induction cols as [|c cols IH]; simpl; [contradiction|].
  intros [->|Hin] Heq.
  - rewrite (proj2 (String.eqb_eq _ _) Heq). now exists col.
  - destruct (lower c =? lower key)%string; [now exists c | now apply IH].
Qed.

Lemma first_match_none (key : string) (cols : list string) :
  (forall col, In col cols -> lower col <> lower key) ->
  first_match key cols = None.
Proof.
  induction cols as [|c cols IH]; simpl; intros H; [reflexivity|].
  destruct (lower c =? lower key)%string eqn:E.
  - apply String.eqb_eq in E. elim (H c); [now left | exact E].
  - apply IH. intros col Hin. apply H. now right.
Qed.

(** The scan stops at the first column that matches. *)
Lemma first_match_first (key col : string) (pre post : list string) :
  (forall c, In c pre -> lower c <> lower key) ->
  lower col = lower key ->
  first_match key (pre ++ col :: post) = Some col.
Proof.
  intros Hpre Heq. induction pre as [|c pre IH]; simpl.
  - now rewrite (proj2 (String.eqb_eq _ _) Heq).
  - destruct (lower c =? lower key)%string eqn:E.
    + apply String.eqb_eq in E. elim (Hpre c); [now left | exact E].
    + apply IH. intros c' Hin. apply Hpre. now right.
Qed.

(** The column found is the first that matches: none before it does. *)
Lemma first_match_split (key col : string) (cols : list string) :
  first_match key cols = Some col ->
  exists pre post,
    cols = (pre ++ col :: post)%list
    /\ (forall c, In c pre -> lower c <> lower key)
    /\ lower col = lower key.
Proof.
  induction cols as [|c cols IH]; simpl; [discriminate|].
  destruct (lower c =? lower key)%string eqn:E.
  - intros [= <-]. exists [], cols. repeat split.
    + intros c' [].
    + now apply String.eqb_eq.
  - intros H. destruct (IH H) as (pre & post & -> & Hpre & Hcol).
    exists (c :: pre), post. repeat split; [|exact Hcol].
    intros c' [<-|Hin]; [now apply String.eqb_neq | now apply Hpre].
Qed.

Lemma resolve_column_nonempty (key : string) (cols : list string) :
  cols <> [] -> resolve_column key (Some cols) = first_match key cols.
Proof. destruct cols; [congruence | reflexivity]. Qed.

Section WithRuntime.
Context {rt : PyRuntime}.

Lemma apply_single (key : string) (v : value) (base : string)
  (cols : option (list string)) (p : string) :
  entry_conditions key v cols = [p] ->
  _apply_filters_to_query [(key, v)] base cols =
  base ++ (if contains "WHERE" (upper base) then " AND " else " WHERE ") ++ p.
Proof.
  intros H. unfold _apply_filters_to_query, conditions. simpl.
  rewrite H. simpl.
  now destruct (contains "WHERE" (upper base)).
Qed.

Lemma age_range_condition (col : string) :
  condition_for col "age" (VRange (NInt 18) (NInt 25)) =
  [quoted col ++ " BETWEEN 18 AND 25"].
Proof. reflexivity. Qed.

Lemma age_range_query (base col : string) (cols : list string) :
  first_match "age" cols = Some col ->
  _apply_filters_to_query [("age", VRange (NInt 18) (NInt 25))] base (Some cols) =
  base ++ (if contains "WHERE" (upper base) then " AND " else " WHERE ")
       ++ quoted col ++ " BETWEEN 18 AND 25".
Proof.
  intros H. apply apply_single.
  unfold entry_conditions. simpl is_none. cbv iota.
  rewrite resolve_column_nonempty by (destruct cols; [discriminate | congruence]).
  rewrite H. apply age_range_condition.
Qed.

Lemma attached_clause (filters : filters_t) (base : string)
  (cols : option (list string)) :
  conditions filters cols <> [] ->
  _apply_filters_to_query filters base cols =
  base ++ (if contains "WHERE" (upper base) then " AND " else " WHERE ")
       ++ join " AND " (conditions filters cols).
Proof.
  intros H. unfold _apply_filters_to_query.
  destruct filters as [|kv filters]; [now elim H|].
  destruct (conditions (kv :: filters) cols) as [|c cs]; [now elim H|].
  now destruct (contains "WHERE" (upper base)).
Qed.

End WithRuntime.

End KPIFiltersFacts.

Import KPIFilters KPIFiltersFacts Samples.

(** *** C2: the age range and how the clause is attached *)

(** C2, as stated, fails: with the known columns [Age, age] the list holds
    ["age"], yet the scan stops at the first column equal to the key up to
    case, so the predicate is over ["Age"] and the text ["age" BETWEEN 18 AND
    25] does not occur in the query. *)
Lemma age_predicate_follows_first_column :
  In "age" ["Age"; "age"]
  /\ _apply_filters_to_query (rt := sample_runtime)
       [("age", VRange (NInt 18) (NInt 25))] "SELECT * FROM students"
       (Some ["Age"; "age"])
     = "SELECT * FROM students WHERE " ++ quoted "Age" ++ " BETWEEN 18 AND 25"
  /\ contains (quoted "age" ++ " BETWEEN 18 AND 25")
       (_apply_filters_to_query (rt := sample_runtime)
          [("age", VRange (NInt 18) (NInt 25))] "SELECT * FROM students"
          (Some ["Age"; "age"]))
     = false.
Proof.
  split; [right; left; reflexivity|]. split; reflexivity.
Qed.

(** C2 (amended): for every base query, injecting [{age: (18, 25)}] with a
    known-column list that holds ["age"] yields a query containing the
    quoted-identifier range predicate ["<col>" BETWEEN 18 AND 25] over the
    first known column equal to [age] up to letter case: whatever stands
    before that column matches nothing, and the query is the base query, the
    keyword and that predicate.  The column is ["age"] itself when no earlier
    column differs from it only in case.  For every non-empty list of emitted
    predicates the result is the base query, then [" WHERE "] when ["WHERE"]
    does not occur in the upper-cased base query and [" AND "] when it does,
    then the predicates joined with [" AND "]; the search finds the word in
    any mix of cases. *)
Theorem inject_age_range_and_attachment (rt : PyRuntime) (base : string) :
  (forall pre col post,
     (forall c, In c pre -> lower c <> "age") -> lower col = "age" ->
     _apply_filters_to_query [("age", VRange (NInt 18) (NInt 25))]
       base (Some (pre ++ col :: post)%list)
     = base ++ (if contains "WHERE" (upper base) then " AND " else " WHERE ")
            ++ quoted col ++ " BETWEEN 18 AND 25")
  /\ (forall cols, In "age" cols ->
        exists pre col post,
          cols = (pre ++ col :: post)%list
          /\ (forall c, In c pre -> lower c <> "age")
          /\ lower col = "age"
          /\ contains (quoted col ++ " BETWEEN 18 AND 25")
               (_apply_filters_to_query [("age", VRange (NInt 18) (NInt 25))]
                  base (Some cols)) = true)
  /\ (forall pre post, (forall c, In c pre -> lower c <> "age") ->
        contains (quoted "age" ++ " BETWEEN 18 AND 25")
          (_apply_filters_to_query [("age", VRange (NInt 18) (NInt 25))]
             base (Some (pre ++ "age" :: post)%list)) = true)
  /\ (forall filters cols, conditions filters cols <> [] ->
        _apply_filters_to_query filters base cols =
        base ++ (if contains "WHERE" (upper base) then " AND " else " WHERE ")
             ++ join " AND " (conditions filters cols))
  /\ (contains "WHERE" (upper base) = true <->
      exists w, upper w = "WHERE" /\ contains w base = true).
Proof.
  split; [|split; [|split; [|split]]].
  - intros pre col post Hpre Hcol.
    apply age_range_query. now apply first_match_first.
  - intros cols Hin.
    destruct (first_match_complete "age" cols "age" Hin eq_refl) as (col & Hcol).
    destruct (first_match_split _ _ _ Hcol) as (pre & post & Hsplit & Hpre & Hlow).
    exists pre, col, post. repeat split; try assumption.
    rewrite (age_range_query base col cols Hcol).
    apply contains_app_left, contains_suffix.
  - intros pre post Hpre.
    rewrite (age_range_query base "age" (pre ++ "age" :: post)).
    + apply contains_app_left, contains_suffix.
    + now apply first_match_first.
  - intros filters cols H. now apply attached_clause.
  - apply where_search_ignores_case.
Qed.

Lemma inject_age_range_and_attachment_witness :
  _apply_filters_to_query (rt := sample_runtime)
    [("age", VRange (NInt 18) (NInt 25))] "SELECT * FROM students"
    (Some (["gender"] ++ "Age" :: ["age"])%list)
  = "SELECT * FROM students"
    ++ (if contains "WHERE" (upper "SELECT * FROM students")
        then " AND " else " WHERE ")
    ++ quoted "Age" ++ " BETWEEN 18 AND 25"
  /\ contains (quoted "age" ++ " BETWEEN 18 AND 25")
       (_apply_filters_to_query (rt := sample_runtime)
          [("age", VRange (NInt 18) (NInt 25))] "SELECT * FROM students"
          (Some ([] ++ "age" :: ["gender"])%list)) = true
  /\ _apply_filters_to_query (rt := sample_runtime)
       [("age", VRange (NInt 18) (NInt 25)); ("gender", VStr "Male")]
       "SELECT * FROM students" (Some ["age"; "gender"])
     = "SELECT * FROM students"
       ++ (if contains "WHERE" (upper "SELECT * FROM students")
           then " AND " else " WHERE ")
       ++ join " AND "
            (conditions (rt := sample_runtime)
               [("age", VRange (NInt 18) (NInt 25)); ("gender", VStr "Male")]
               (Some ["age"; "gender"])).
Proof.
  pose proof (inject_age_range_and_attachment sample_runtime "SELECT * FROM students")
    as (Hfirst & _ & Hage & Hattach & _).
  split; [|split].
  - apply Hfirst; [|reflexivity].
    intros c [<-|[]]. discriminate.
  - apply Hage. intros c [].
  - apply Hattach. vm_compute. discriminate.
Defined.

(** *** C4: when the base query comes back unchanged *)

(** C4, as stated, fails: an empty known-column list is provided and holds no
    column matching [gender], yet [if available_columns:] treats it like a
    missing list and the predicate is emitted. *)
Lemma empty_column_list_is_not_a_schema :
  (forall col, In col [] -> lower col <> lower "gender")
  /\ _apply_filters_to_query (rt := sample_runtime)
       [("gender", VStr "Male")] "SELECT * FROM students" (Some [])
     = "SELECT * FROM students WHERE " ++ quoted "gender" ++ " = 'Male'"
  /\ (_apply_filters_to_query (rt := sample_runtime)
        [("gender", VStr "Male")] "SELECT * FROM students" (Some [])
      =? "SELECT * FROM students")%string = false.
Proof.
  split; [intros col []|]. split; reflexivity.
Qed.

Lemma no_match_no_conditions {rt : PyRuntime} (filters : filters_t)
  (cols : list string) :
  cols <> [] ->
  (forall key v col, In (key, v) filters -> In col cols -> lower col <> lower key) ->
  conditions filters (Some cols) = [].
Proof.
  intros Hne. induction filters as [|[key v] filters IH]; intros H.
  - reflexivity.
  - unfold conditions. simpl. fold (conditions filters (Some cols)).
    rewrite IH by (intros k w col Hin Hc; apply (H k w col); [now right | exact Hc]).
    rewrite app_nil_r. unfold entry_conditions.
    destruct (is_none v); [reflexivity|].
    rewrite resolve_column_nonempty by assumption.
    rewrite first_match_none; [reflexivity|].
    intros col Hin. apply (H key v col); [now left | exact Hin].
Qed.

(** C4 (amended): the injector returns the base query unchanged when the
    filter specification is empty, and when the known-column list is provided
    and non-empty and every attribute of the specification is absent from it
    up to letter case.  The injector is a total function: no such entry makes
    it raise. *)
Theorem inject_returns_base_unchanged (rt : PyRuntime) (base : string) :
  (forall cols, _apply_filters_to_query [] base cols = base)
  /\ (forall filters cols,
        cols <> [] ->
        (forall key v col, In (key, v) filters -> In col cols ->
           lower col <> lower key) ->
        _apply_filters_to_query filters base (Some cols) = base).
Proof.
  split; [reflexivity|].
  intros filters cols Hne H. unfold _apply_filters_to_query.
  rewrite (no_match_no_conditions filters cols Hne H).
  now destruct filters.
Qed.

Lemma inject_returns_base_unchanged_witness :
  _apply_filters_to_query (rt := sample_runtime)
    [("unknown_attr", VStr "X")] "SELECT * FROM students" (Some ["age"; "gender"])
  = "SELECT * FROM students".
Proof.
  apply (proj2 (inject_returns_base_unchanged sample_runtime "SELECT * FROM students")).
  - discriminate.
  - intros key v col [E|[]] Hin. injection E as <- <-.
    destruct Hin as [<-|[<-|[]]]; vm_compute; discriminate.
Defined.

(** *** C5: columns are resolved up to letter case *)






(** ** The general builder and the validator *)

Module FilterEngineFacts.

Import FilterEngine.

Lemma extended_le_not_gt (a b : extended) :
  extended_le a b = true -> extended_gt a b = false.
Proof.
  destruct a, b; simpl; try discriminate; try reflexivity.
  intros ->. reflexivity.
Qed.

Lemma num_le_not_gt (lo hi : num) : num_le lo hi = true -> num_gt lo hi = false.
Proof. apply extended_le_not_gt. Qed.

(** One entry with a message makes the whole specification invalid. *)
Lemma entry_error_invalidates (filters : filters_t) (key : string) (v : value) :
  In (key, v) filters -> entry_errors key v <> [] ->
  fst (validate_filters filters) = false.
Proof.
  intros Hin Hne. unfold validate_filters. simpl.
  destruct (entry_errors key v) as [|e es] eqn:E; [now elim Hne|].
  assert (Hmem : In e (flat_map (fun kv => entry_errors (fst kv) (snd kv)) filters)).
  { apply in_flat_map. exists (key, v). split; [exact Hin|]. simpl. rewrite E. now left. }
  destruct (flat_map _ filters); [contradiction | reflexivity].
Qed.

Lemma no_entry_error_validates (filters : filters_t) :
  (forall key v, In (key, v) filters -> entry_errors key v = []) ->
  validate_filters filters = (true, []).
Proof.
  intros H. unfold validate_filters.
  assert (E : flat_map (fun kv => entry_errors (fst kv) (snd kv)) filters = []).
  { induction filters as [|[k v] filters IH]; [reflexivity|]. simpl.
    rewrite (H k v) by now left. apply IH. intros k' v' Hin. apply H. now right. }
  now rewrite E.
Qed.

Section WithRuntime.
Context {rt : PyRuntime}.

(** An empty dictionary has no conditions, so the first test of
    [build_filter_query] changes nothing. *)
Lemma build_filter_query_eq (filters : filters_t) :
  build_filter_query filters =
  match conditions filters with
  | [] => ""
  | cs => join " AND " cs
  end.
Proof. now destruct filters. Qed.

Lemma conditions_app (f g : filters_t) :
  conditions (f ++ g)%list = (conditions f ++ conditions g)%list.
Proof. apply flat_map_app. Qed.

End WithRuntime.

End FilterEngineFacts.

Import FilterEngine FilterEngineFacts.

(** *** C6: what the validator rejects, and that the builders do not check *)

(** C6: [validate_filters] rejects every specification holding an entry whose
    value is an empty list, and every specification holding a two-element
    range with [lo > hi]; it accepts, with no message, a specification free of
    both defects (no empty list, every tuple a two-element range with
    [lo <= hi]).  [{a: []}] and [{a: (10, 5)}] are rejected and [{a: (5, 10)}]
    is accepted.  Neither builder checks: each writes an inverted range as it
    stands and writes nothing for an empty list. *)
Theorem validate_filters_rejects_bad_shapes :
  (forall filters key,
     In (key, VList []) filters -> fst (validate_filters filters) = false)
  /\ (forall filters key lo hi,
        In (key, VRange lo hi) filters -> num_gt lo hi = true ->
        fst (validate_filters filters) = false)
  /\ (forall filters,
        (forall key v, In (key, v) filters ->
           match v with
           | VList l => l <> []
           | VTuple t => exists lo hi, t = [lo; hi] /\ num_le lo hi = true
           | VAtom _ => True
           end) ->
        validate_filters filters = (true, []))
  /\ fst (validate_filters [("a", VList [])]) = false
  /\ fst (validate_filters [("a", VRange (NInt 10) (NInt 5))]) = false
  /\ validate_filters [("a", VRange (NInt 5) (NInt 10))] = (true, [])
  /\ (forall (rt : PyRuntime) key lo hi,
        build_filter_query [(key, VRange lo hi)] =
        key ++ " BETWEEN " ++ str_num lo ++ " AND " ++ str_num hi)
  /\ (forall (rt : PyRuntime) key, build_filter_query [(key, VList [])] = "")
  /\ (forall (rt : PyRuntime) base lo hi,
        _apply_filters_to_query [("age", VRange lo hi)] base None =
        base ++ (if contains "WHERE" (upper base) then " AND " else " WHERE ")
             ++ quoted "age" ++ " BETWEEN " ++ str_num lo ++ " AND " ++ str_num hi)
  /\ (forall (rt : PyRuntime) base key,
        _apply_filters_to_query [(key, VList [])] base None = base).
Proof.
  repeat split; try reflexivity.
  - intros filters key Hin.
    apply (entry_error_invalidates filters key (VList []) Hin). discriminate.
  - intros filters key lo hi Hin Hgt.
    apply (entry_error_invalidates filters key (VRange lo hi) Hin).
    unfold entry_errors. simpl. rewrite Hgt. discriminate.
  - intros filters H. apply no_entry_error_validates.
    intros key v Hin. specialize (H key v Hin). unfold entry_errors.
    destruct v as [[|s|n]|l|t]; try reflexivity.
    + destruct l; [now elim H | reflexivity].
    + destruct H as (lo & hi & -> & Hle). simpl.
      now rewrite (num_le_not_gt lo hi Hle).
  - intros rt base lo hi. now apply apply_single.
  - intros rt base key. unfold _apply_filters_to_query, KPIFilters.conditions.
    simpl. unfold KPIFilters.entry_conditions, condition_for. simpl.
    now rewrite andb_false_r.
Qed.

Lemma validate_filters_rejects_bad_shapes_witness :
  fst (validate_filters [("gender", VList [AStr "Male"]); ("tags", VList [])]) = false
  /\ fst (validate_filters [("age", VRange (NInt 35) (NInt 25))]) = false
  /\ validate_filters [("gender", VList [AStr "Male"]);
                       ("age", VRange (NInt 25) (NInt 35))] = (true, []).
Proof.
  pose proof validate_filters_rejects_bad_shapes as (Hlist & Hrange & Hok & _).
  split; [|split].
  - apply (Hlist _ "tags"). right; left; reflexivity.
  - apply (Hrange _ "age" (NInt 35) (NInt 25)); [left; reflexivity | reflexivity].
  - apply Hok. intros key v [E|[E|[]]]; injection E as <- <-.
    + discriminate.
    + exists (NInt 25), (NInt 35). split; reflexivity.
Defined.

(** *** C9: booleans never reach the boolean arm *)

(** C9: in [build_filter_query] a boolean value is taken by the numeric arm,
    because [isinstance(value, (int, float))] holds for booleans and is tested
    first; the entry is written [key = True] or [key = False], unquoted; and no
    value at all selects the boolean arm. *)
Theorem boolean_is_formatted_as_number (rt : PyRuntime) (key : string) (b : bool) :
  select_arm (VBool b) = Some ArmNumeric
  /\ build_filter_query [(key, VBool b)] =
       key ++ " = " ++ (if b then "True" else "False")
  /\ (forall v, negb (isinstance_bool v)
                || (isinstance_int v || isinstance_float v) = true)
  /\ (forall v, select_arm v <> Some ArmBool).
Proof.
  split; [|split; [|split]].
  - reflexivity.
  - unfold build_filter_query, conditions. simpl. now destruct b.
  - intros v. now destruct v as [[|s|[c|z|f]]|l|t].
  - intros v. unfold select_arm.
    destruct v as [[|s|[c|z|f]]|[|x l]|[|x [|y [|z t]]]]; simpl; discriminate.
Qed.

(** *** C10: entries whose value is None *)

(** C10: an entry whose value is [None] is skipped by the general builder, by
    the KPI-path injector and by the validator alike: each of the three
    returns, for a specification holding such an entry anywhere, what it
    returns for the specification without it; the entry contributes no
    predicate to either builder and no message to the validator. *)
Theorem none_entries_are_skipped (rt : PyRuntime) (before after : filters_t)
  (key : string) :
  build_filter_query (before ++ (key, VNone) :: after)%list
    = build_filter_query (before ++ after)%list
  /\ (forall base cols,
        _apply_filters_to_query (before ++ (key, VNone) :: after)%list base cols
        = _apply_filters_to_query (before ++ after)%list base cols)
  /\ validate_filters (before ++ (key, VNone) :: after)%list
       = validate_filters (before ++ after)%list
  /\ FilterEngine.entry_conditions key VNone = []
  /\ (forall cols, KPIFilters.entry_conditions key VNone cols = [])
  /\ entry_errors key VNone = [].
Proof.
  repeat split.
  - rewrite !build_filter_query_eq.
    change ((key, VNone) :: after) with ([(key, VNone)] ++ after)%list.
    now rewrite !conditions_app.
  - intros base cols.
    assert (E : KPIFilters.conditions (before ++ (key, VNone) :: after)%list cols
                = KPIFilters.conditions (before ++ after)%list cols).
    { unfold KPIFilters.conditions.
      change ((key, VNone) :: after) with ([(key, VNone)] ++ after)%list.
      now rewrite !flat_map_app. }
    unfold _apply_filters_to_query. rewrite E.
    destruct before as [|x before]; simpl; [|reflexivity].
    destruct after as [|y after]; reflexivity.
  - unfold validate_filters.
    change ((key, VNone) :: after) with ([(key, VNone)] ++ after)%list.
    now rewrite !flat_map_app.
Qed.

(** ** The store: validation before an import *)

Module DatabaseManagerFacts.

Import DatabaseManager.

Lemma all_chars_forall (p : ascii -> bool) (s : string) :
  all_chars p s = true <-> (forall ch, In ch (chars s) -> p ch = true).
Proof.
  induction s as [|c s IH]; simpl.
  - split; [intros _ ch [] | reflexivity].
  - rewrite andb_true_iff, IH. split.
    + intros [Hc Hs] ch [<-|Hin]; [exact Hc | now apply Hs].
    + intros H. split; [apply H; now left | intros ch Hin; apply H; now right].
Qed.

Lemma all_chars_false (p : ascii -> bool) (s : string) (ch : ascii) :
  In ch (chars s) -> p ch = false -> all_chars p s = false.
Proof.
  intros Hin Hp. destruct (all_chars p s) eqn:E; [|reflexivity].
  rewrite all_chars_forall in E. now rewrite (E ch Hin) in Hp.
Qed.

(** Dropping the underscores and asking for alphanumerics is asking every
    character to be an underscore or alphanumeric. *)
Lemma all_chars_without_underscores (s : string) :
  all_chars isalnum_char (replace "_"%char "" s) =
  all_chars (fun c => Ascii.eqb c "_" || isalnum_char c) s.
Proof.
  induction s as [|c s IH]; simpl; [reflexivity|].
  destruct (Ascii.eqb c "_"); simpl; now rewrite IH.
Qed.

(** Nothing is left exactly when every character is an underscore. *)
Lemma is_empty_without_underscores (s : string) :
  is_empty (replace "_"%char "" s) = all_chars (fun c => Ascii.eqb c "_") s.
Proof.
  induction s as [|c s IH]; simpl; [reflexivity|].
  destruct (Ascii.eqb c "_"); simpl; [exact IH | reflexivity].
Qed.

(** Below U+0080 the alphanumerics are the letters and digits of the
    pattern. *)
Lemma ascii_outside_pattern (ch : ascii) :
  (code ch <? 128)%N = true -> is_word_char ch = false ->
  Ascii.eqb ch "_" || isalnum_char ch = false.
Proof.
  destruct ch as [[] [] [] [] [] [] [] []]; vm_compute; intros; congruence.
Qed.

Lemma word_char_passes (ch : ascii) :
  is_word_char ch = true -> Ascii.eqb ch "_" || isalnum_char ch = true.
Proof.
  destruct ch as [[] [] [] [] [] [] [] []]; vm_compute; intros; congruence.
Qed.

Lemma name_refused_by_char (table_name : string) (ch : ascii) :
  In ch (chars table_name) ->
  Ascii.eqb ch "_" || isalnum_char ch = false ->
  name_refused table_name = true.
Proof.
  intros Hin Hch. unfold name_refused, isalnum.
  rewrite all_chars_without_underscores.
  rewrite (all_chars_false _ table_name ch Hin Hch).
  rewrite andb_false_r. apply orb_true_r.
Qed.

Lemma name_refused_only_underscores (table_name : string) :
  (forall ch, In ch (chars table_name) -> ch = "_"%char) ->
  name_refused table_name = true.
Proof.
  intros H. unfold name_refused, isalnum.
  rewrite is_empty_without_underscores.
  assert (E : all_chars (fun c => Ascii.eqb c "_") table_name = true).
  { apply all_chars_forall. intros ch Hin. rewrite (H ch Hin). reflexivity. }
  rewrite E. apply orb_true_r.
Qed.

Lemma name_accepted (table_name : string) (ch : ascii) :
  matches_identifier_pattern table_name = true ->
  In ch (chars table_name) -> ch <> "_"%char ->
  name_refused table_name = false.
Proof.
  unfold matches_identifier_pattern, name_refused, isalnum.
  intros H Hin Hne. apply andb_true_iff in H as [Hnonempty Hall].
  apply negb_true_iff in Hnonempty. rewrite Hnonempty. simpl.
  rewrite is_empty_without_underscores, all_chars_without_underscores.
  rewrite (all_chars_false (fun c => Ascii.eqb c "_") table_name ch Hin)
    by now apply Ascii.eqb_neq.
  simpl. apply negb_false_iff, all_chars_forall.
  intros c Hc. apply word_char_passes.
  rewrite all_chars_forall in Hall. now apply Hall.
Qed.

Section WithStore.
Context {db : DuckDB}.

Lemma import_data_empty (df : DataFrame) (table_name if_exists : string)
  (c : connection) :
  df_empty df = true ->
  import_data df table_name if_exists c =
  (inl (ValueError "Cannot import empty DataFrame"), c).
Proof. intros H. unfold import_data. now rewrite H. Qed.

Lemma import_data_refused (df : DataFrame) (table_name if_exists : string)
  (c : connection) :
  df_empty df = false -> name_refused table_name = true ->
  import_data df table_name if_exists c =
  (inl (ValueError ("Invalid table name: " ++ table_name)), c).
Proof.
  intros Hdf Hname. unfold import_data. rewrite Hdf.
  unfold name_refused in Hname. now rewrite Hname.
Qed.

(** Whatever the handler of [import_data] catches leaves as a
    [RuntimeError]. *)
Lemma wrapped_is_not_value_error {A : Type} (m : M A) (text : exn -> string)
  (c : connection) (msg : string) :
  fst (try_except m (fun e => raise (RuntimeError (text e))) c)
  <> inl (ValueError msg).
Proof.
  unfold try_except, raise. destruct (m c) as [[e|a] c']; simpl; discriminate.
Qed.

Lemma import_data_checked (df : DataFrame) (table_name if_exists : string)
  (c : connection) (msg : string) :
  df_empty df = false -> name_refused table_name = false ->
  fst (import_data df table_name if_exists c) <> inl (ValueError msg).
Proof.
  intros Hdf Hname. unfold import_data. rewrite Hdf.
  unfold name_refused in Hname. rewrite Hname.
  apply wrapped_is_not_value_error.
Qed.

End WithStore.

End DatabaseManagerFacts.

Import DatabaseManager DatabaseManagerFacts.

(** *** C3: the two guards of an import *)

(** C3, as stated, fails twice.  The name [_] matches [[A-Za-z0-9_]+], the
    dataset has rows, and the import is refused as an invalid name: once the
    underscores are dropped nothing is left, and [isalnum] is false on the
    empty text.  The name [caf] followed by U+00E9 (e with acute accent) holds a
    character outside [[A-Za-z0-9_]] and is let through: [isalnum] accepts every alphanumeric code point, not only
    the letters and digits of the pattern. *)
Lemma underscore_refused_accent_accepted :
  (matches_identifier_pattern "_" = true
   /\ df_empty factors_frame = false
   /\ import_data (db := catalogue_db) factors_frame "_" "replace" []
      = (inl (ValueError "Invalid table name: _"), []))
  /\ (In "233"%char (chars ("caf" ++ String "233"%char ""))
      /\ is_word_char "233"%char = false
      /\ import_data (db := permissive_db) factors_frame
           ("caf" ++ String "233"%char "") "replace" tt
         = (inr tt, tt)).
Proof.
  repeat split; try reflexivity. simpl. tauto.
Qed.

(** C3 (amended): [import_data] raises [ValueError("Cannot import empty
    DataFrame")] whenever the dataset has no rows, whatever the name.  On a
    dataset that is not empty it raises [ValueError("Invalid table name: ...")]
    whenever the name is empty, holds only underscores, or holds a character
    that is neither an underscore nor alphanumeric for [str.isalnum]; every
    character below U+0080 outside [[A-Za-z0-9_]], such as [-] or [!], is one.
    On a dataset that is not empty, every name that matches [[A-Za-z0-9_]+]
    and holds at least one letter or digit passes the check: whatever the
    import then raises is not a [ValueError]. *)
Theorem import_data_guards (db : DuckDB) (df : DataFrame)
  (table_name if_exists : string) (c : connection) :
  ((List.length (df_rows df) = 0)%nat ->
     import_data df table_name if_exists c =
     (inl (ValueError "Cannot import empty DataFrame"), c))
  /\ (df_empty df = false ->
      (table_name = ""
       \/ (forall ch, In ch (chars table_name) -> ch = "_"%char)
       \/ (exists ch, In ch (chars table_name)
             /\ Ascii.eqb ch "_" || isalnum_char ch = false)
       \/ (exists ch, In ch (chars table_name)
             /\ (code ch <? 128)%N = true /\ is_word_char ch = false)) ->
      import_data df table_name if_exists c =
      (inl (ValueError ("Invalid table name: " ++ table_name)), c))
  /\ (df_empty df = false ->
      matches_identifier_pattern table_name = true ->
      (exists ch, In ch (chars table_name) /\ ch <> "_"%char) ->
      forall msg,
        fst (import_data df table_name if_exists c) <> inl (ValueError msg)).
Proof.
  split; [|split].
  - intros Hrows. apply import_data_empty. unfold df_empty.
    rewrite Hrows. apply orb_true_r.
  - intros Hdf Hname. apply import_data_refused; [exact Hdf|].
    destruct Hname as [-> | [Hall | [(ch & Hin & Hch) | (ch & Hin & Hlow & Hch)]]].
    + reflexivity.
    + now apply name_refused_only_underscores.
    + now apply (name_refused_by_char table_name ch).
    + apply (name_refused_by_char table_name ch Hin).
      now apply ascii_outside_pattern.
  - intros Hdf Hpat (ch & Hin & Hne) msg.
    apply import_data_checked; [exact Hdf|].
    now apply (name_accepted table_name ch).
Qed.

Lemma import_data_guards_witness :
  import_data (db := catalogue_db) {| df_columns := []; df_rows := [] |}
    "test_table" "replace" []
    = (inl (ValueError "Cannot import empty DataFrame"), [])
  /\ import_data (db := catalogue_db) factors_frame "invalid-table-name!" "replace" []
     = (inl (ValueError "Invalid table name: invalid-table-name!"), [])
  /\ (forall msg,
        fst (import_data (db := catalogue_db) factors_frame "test_table" "replace" [])
        <> inl (ValueError msg)).
Proof.
  split; [|split].
  - apply (proj1 (import_data_guards catalogue_db _ "test_table" "replace" [])).
    reflexivity.
  - apply (proj1 (proj2 (import_data_guards catalogue_db factors_frame
                           "invalid-table-name!" "replace" []))).
    + reflexivity.
    + right; right; right. exists "-"%char. repeat split. simpl. tauto.
  - apply (proj2 (proj2 (import_data_guards catalogue_db factors_frame
                           "test_table" "replace" []))).
    + reflexivity.
    + reflexivity.
    + exists "t"%char. split; [now left | discriminate].
Defined.

(** ** The KPI recipes *)

Module KPICalculatorFacts.

Import KPICalculator.

Lemma append_empty_r (s : string) : s ++ "" = s.
Proof. induction s as [|c s IH]; simpl; [reflexivity | now rewrite IH]. Qed.

Lemma all_chars_app (p : ascii -> bool) (a b : string) :
  all_chars p (a ++ b) = all_chars p a && all_chars p b.
Proof.
  induction a as [|c a IH]; simpl; [reflexivity|].
  now rewrite IH, andb_assoc.
Qed.

Lemma has_nonspace_app (a b : string) :
  has_nonspace a = true -> has_nonspace (a ++ b) = true.
Proof.
  unfold has_nonspace. rewrite all_chars_app.
  intros H. apply negb_true_iff in H. now rewrite H.
Qed.

(** Stripping the left side stops on the first character that is not white
    space, if there is one. *)
Lemma lstrip_has_nonspace (s : string) :
  has_nonspace s = true ->
  exists c rest, lstrip s = String c rest /\ isspace_char c = false.
Proof.
  unfold has_nonspace. induction s as [|c s IH]; simpl; [discriminate|].
  destruct (isspace_char c) eqn:E; simpl.
  - exact IH.
  - intros _. now exists c, s.
Qed.

Lemma rstrip_keeps_head (c : ascii) (rest : string) :
  isspace_char c = false -> is_empty (rstrip (String c rest)) = false.
Proof.
  intros H. simpl. destruct (rstrip rest); [now rewrite H | reflexivity].
Qed.

Lemma strip_has_nonspace (s : string) :
  has_nonspace s = true -> is_empty s = false /\ is_empty (strip s) = false.
Proof.
  intros H. split.
  - now destruct s.
  - unfold strip. destruct (lstrip_has_nonspace s H) as (c & rest & -> & Hc).
    now apply rstrip_keeps_head.
Qed.

Section WithStore.
Context {rt : PyRuntime} {db : DuckDB}.

(** The injector only ever appends to the query it is given. *)
Lemma apply_filters_extends (filters : filters_t) (query : string)
  (cols : option (list string)) :
  exists suffix, KPIFilters._apply_filters_to_query filters query cols = query ++ suffix.
Proof.
  unfold KPIFilters._apply_filters_to_query.
  destruct filters as [|kv filters].
  - exists "". now rewrite append_empty_r.
  - destruct (KPIFilters.conditions (kv :: filters) cols) as [|p ps].
    + exists "". now rewrite append_empty_r.
    + destruct (contains "WHERE" (upper query)); eexists; reflexivity.
Qed.

Lemma statement_has_nonspace (filters : filters_t) (query : string)
  (cols : list string) (tail : string) :
  has_nonspace query = true ->
  has_nonspace (statement filters query cols tail) = true.
Proof.
  intros H. unfold statement.
  destruct (apply_filters_extends filters query (Some cols)) as (suffix & ->).
  now apply has_nonspace_app, has_nonspace_app.
Qed.

(** A statement that is not blank goes to the connection, and what the
    connection raises comes back as [RuntimeError("Query execution failed:
    ...")]. *)
Lemma execute_query_runs (query : string) (c : connection) :
  has_nonspace query = true ->
  DatabaseManager.execute_query query c =
  match execute query c with
  | (inr df, c') => (inr df, c')
  | (inl e, c') =>
      (inl (RuntimeError ("Query execution failed: " ++ exn_str e)), c')
  end.
Proof.
  intros H. destruct (strip_has_nonspace query H) as (H1 & H2).
  unfold DatabaseManager.execute_query. rewrite H1, H2. reflexivity.
Qed.

(** The habits statement raising ends the recipe: the handler re-raises and
    the factors statement is never sent. *)
Lemma two_phase_habits_raises (n : string) (filters : filters_t)
  (qh : string) (ch : list string) (th : string)
  (qf : string) (cf : list string) (tf : string)
  (c c' : connection) (e : exn) :
  has_nonspace qh = true ->
  execute (statement filters qh ch th) c = (inl e, c') ->
  two_phase n filters qh ch th qf cf tf c =
  (inl (RuntimeError ("Failed to calculate KPI " ++ n ++ ": "
                      ++ "Query execution failed: " ++ exn_str e)), c').
Proof.
  intros Hq He. unfold two_phase, try_except, bind.
  rewrite (execute_query_runs _ c (statement_has_nonspace filters qh ch th Hq)).
  rewrite He. reflexivity.
Qed.

(** Rows from the habits statement are the result. *)
Lemma two_phase_habits_rows (n : string) (filters : filters_t)
  (qh : string) (ch : list string) (th : string)
  (qf : string) (cf : list string) (tf : string)
  (c c' : connection) (df : DataFrame) :
  has_nonspace qh = true ->
  execute (statement filters qh ch th) c = (inr df, c') ->
  df_empty df = false ->
  two_phase n filters qh ch th qf cf tf c = (inr df, c').
Proof.
  intros Hq He Hdf. unfold two_phase, try_except, bind.
  rewrite (execute_query_runs _ c (statement_has_nonspace filters qh ch th Hq)).
  rewrite He, Hdf. reflexivity.
Qed.

(** An empty habits result sends the factors statement, whose outcome is the
    recipe's. *)
Lemma two_phase_falls_back (n : string) (filters : filters_t)
  (qh : string) (ch : list string) (th : string)
  (qf : string) (cf : list string) (tf : string)
  (c c' : connection) (df : DataFrame) :
  has_nonspace qh = true -> has_nonspace qf = true ->
  execute (statement filters qh ch th) c = (inr df, c') ->
  df_empty df = true ->
  two_phase n filters qh ch th qf cf tf c =
  match execute (statement filters qf cf tf) c' with
  | (inr df', c'') => (inr df', c'')
  | (inl e, c'') =>
      (inl (RuntimeError ("Failed to calculate KPI " ++ n ++ ": "
                          ++ "Query execution failed: " ++ exn_str e)), c'')
  end.
Proof.
  intros Hq Hf He Hdf. unfold two_phase, try_except, bind.
  rewrite (execute_query_runs _ c (statement_has_nonspace filters qh ch th Hq)).
  rewrite He, Hdf.
  rewrite (execute_query_runs _ c' (statement_has_nonspace filters qf cf tf Hf)).
  now destruct (execute (statement filters qf cf tf) c') as [[e|df'] c''].
Qed.

End WithStore.

End KPICalculatorFacts.

Import KPICalculator KPICalculatorFacts.

(** *** C1: what happens when the habits table is missing *)

(** C1 asks for a result from the factors table when the habits table is
    absent.  The code does not deliver it: for each of the four recipes, when
    the connection raises on the habits statement (as DuckDB does for a table
    the catalog does not hold), [execute_query] re-raises, the recipe's handler
    re-raises again, and the recipe ends with [RuntimeError("Failed to
    calculate KPI n: Query execution failed: ...")]; the factors statement is
    never sent, whatever the factors table holds. *)
Theorem kpi_habits_failure_is_final (rt : PyRuntime) (db : DuckDB) (k : kpi)
  (filters : filters_t) (c c' : connection) (e : exn) :
  execute (habits_statement k filters) c = (inl e, c') ->
  calculate_kpi k filters c =
  (inl (RuntimeError ("Failed to calculate KPI " ++ kpi_number k
                      ++ ": Query execution failed: " ++ exn_str e)), c').
Proof.
  intros He. destruct k; now apply two_phase_habits_raises.
Qed.

(** The failing input of C1: a session holding only a populated factors
    table, no filter.  Each recipe raises, although its factors statement,
    sent on its own, returns the two stored rows. *)
Lemma kpi_habits_failure_is_final_witness :
  let missing := "Catalog Error: Table does not exist!" in
  let failure n :=
    (@inl exn DataFrame
       (RuntimeError ("Failed to calculate KPI " ++ n
                      ++ ": Query execution failed: " ++ missing)),
     factors_only) in
  (calculate_kpi_1_scores_by_group (rt := sample_runtime) (db := catalogue_db)
     [] factors_only = failure "1"
   /\ calculate_kpi_2_study_correlation (rt := sample_runtime) (db := catalogue_db)
        [] factors_only = failure "2"
   /\ calculate_kpi_3_attendance_impact (rt := sample_runtime) (db := catalogue_db)
        [] factors_only = failure "3"
   /\ calculate_kpi_4_sleep_performance (rt := sample_runtime) (db := catalogue_db)
        [] factors_only = failure "4")
  /\ (forall k,
        execute_query (db := catalogue_db)
          (factors_statement (rt := sample_runtime) k []) factors_only
        = (inr factors_frame, factors_only))
  /\ df_empty factors_frame = false.
Proof.
  pose proof (fun k =>
                kpi_habits_failure_is_final sample_runtime catalogue_db k []
                  factors_only factors_only
                  (ExternalError "Catalog Error: Table does not exist!")) as H.
  cbv zeta. split; [split; [|split; [|split]] | split].
  - apply (H KPI1). reflexivity.
  - apply (H KPI2). reflexivity.
  - apply (H KPI3). reflexivity.
  - apply (H KPI4). reflexivity.
  - intros k. now destruct k.
  - reflexivity.
Defined.

(** When the habits statement returns rows they are the result; when it
    returns none, each recipe sends its factors statement and ends as that
    statement does, its failure re-raised under the recipe's number. *)
Theorem kpi_empty_habits_result_falls_back (rt : PyRuntime) (db : DuckDB)
  (k : kpi) (filters : filters_t) (c c' : connection) (df : DataFrame) :
  execute (habits_statement k filters) c = (inr df, c') ->
  calculate_kpi k filters c =
  if df_empty df then
    match execute (factors_statement k filters) c' with
    | (inr df', c'') => (inr df', c'')
    | (inl e, c'') =>
        (inl (RuntimeError ("Failed to calculate KPI " ++ kpi_number k
                            ++ ": Query execution failed: " ++ exn_str e)), c'')
    end
  else (inr df, c').
Proof.
  intros He. destruct (df_empty df) eqn:Hdf.
  - destruct k; now apply (two_phase_falls_back _ _ _ _ _ _ _ _ c c' df).
  - destruct k; now apply two_phase_habits_rows.
Qed.

Lemma kpi_empty_habits_result_falls_back_witness :
  calculate_kpi (rt := sample_runtime) (db := catalogue_db) KPI1 [] emptied_habits
  = (inr factors_frame, emptied_habits).
Proof.
  apply (kpi_empty_habits_result_falls_back sample_runtime catalogue_db KPI1 []
           emptied_habits emptied_habits
           {| df_columns := ["gender"; "exam_score"]; df_rows := [] |}).
  reflexivity.
Defined.

(** *** C7: the correlation of short series *)

(** C7: [calculate_correlation_coefficient] returns exactly [0.0], without
    consulting numpy and without raising, whenever either series has fewer
    than two elements; two one-element series are such a case. *)
Theorem correlation_of_short_series (np : Numpy) (x y : list pyfloat) :
  (List.length x < 2)%nat \/ (List.length y < 2)%nat ->
  calculate_correlation_coefficient x y = inr (FFinite 0).
Proof.
  intros H. unfold calculate_correlation_coefficient.
  assert (E : ((List.length x <? 2)%nat || (List.length y <? 2)%nat) = true).
  { apply orb_true_iff. destruct H as [H|H]; [left|right]; now apply Nat.ltb_lt. }
  now rewrite E.
Qed.

Lemma correlation_of_short_series_witness :
  calculate_correlation_coefficient (np := numpy_unused)
    [FFinite 1] [FFinite 2] = inr (FFinite 0).
Proof.
  apply (correlation_of_short_series numpy_unused [FFinite 1] [FFinite 2]).
  left. simpl. lia.
Defined.

(** *** C8: decoding bytes never fails *)

Import FileManager.

(** C8: for every [bytes] input [handle_encoding_error] returns decoded text
    and never raises [FileEncodingError]: it returns the UTF-8 reading when
    the bytes are valid UTF-8, and otherwise the Latin-1 reading, which exists
    for every byte sequence; the two later codecs and the [raise] after the
    loop are never reached. *)
Theorem decoding_bytes_never_fails (file_bytes : bytes) :
  handle_encoding_error file_bytes =
    inr (match utf8_decode file_bytes with
         | Some t => t
         | None => map Strings.Byte.to_N file_bytes
         end)
  /\ (exists t, handle_encoding_error file_bytes = inr t)
  /\ (forall msg, handle_encoding_error file_bytes <> inl (FileEncodingError msg))
  /\ first_decoding [Utf8; Latin1] file_bytes = first_decoding encodings file_bytes.
Proof.
  assert (E : handle_encoding_error file_bytes =
              inr (match utf8_decode file_bytes with
                   | Some t => t
                   | None => map Strings.Byte.to_N file_bytes
                   end)).
  { unfold handle_encoding_error, encodings. simpl.
    now destruct (utf8_decode file_bytes). }
  split; [exact E|]. split; [|split].
  - eexists. exact E.
  - intros msg. rewrite E. discriminate.
  - unfold encodings. simpl. now destruct (utf8_decode file_bytes).
Qed.

(** ** Further properties of the store *)

Module StoreFacts.

Import DatabaseManager.

Lemma lstrip_blank (s : string) :
  all_chars isspace_char s = true -> lstrip s = "".
Proof.
  induction s as [|c s IH]; simpl; [reflexivity|].
  intros H. apply andb_true_iff in H as [Hc Hs]. rewrite Hc. now apply IH.
Qed.

Lemma strip_blank (s : string) : has_nonspace s = false -> strip s = "".
Proof.
  unfold has_nonspace, strip. intros H. apply negb_false_iff in H.
  now rewrite lstrip_blank.
Qed.

End StoreFacts.

Import StoreFacts.

(** [execute_query] refuses blank text, and only blank text, with
    [ValueError("Query cannot be empty")], before the connection is touched;
    a statement that is not blank goes to the connection, and whatever the
    connection raises comes back as [RuntimeError("Query execution failed:
    ...")] with the engine's message. *)
Theorem execute_query_errors (db : DuckDB) (query : string) (c : connection) :
  (has_nonspace query = false ->
     execute_query query c = (inl (ValueError "Query cannot be empty"), c))
  /\ (has_nonspace query = true ->
      (forall msg, fst (execute_query query c) <> inl (ValueError msg))
      /\ (forall df c', execute query c = (inr df, c') ->
            execute_query query c = (inr df, c'))
      /\ (forall e c', execute query c = (inl e, c') ->
            execute_query query c =
            (inl (RuntimeError ("Query execution failed: " ++ exn_str e)), c'))).
Proof.
  split.
  - intros H. unfold execute_query. rewrite (strip_blank query H).
    simpl. now rewrite orb_true_r.
  - intros H. rewrite (execute_query_runs query c H). repeat split.
    + intros msg. destruct (execute query c) as [[e|df] c']; simpl; discriminate.
    + intros df c' ->. reflexivity.
    + intros e c' ->. reflexivity.
Qed.

Lemma execute_query_errors_witness :
  execute_query (db := catalogue_db) "   " factors_only
    = (inl (ValueError "Query cannot be empty"), factors_only)
  /\ execute_query (db := catalogue_db) "SELECT * FROM students" factors_only
     = (inl (RuntimeError
               "Query execution failed: Catalog Error: Table does not exist!"),
        factors_only).
Proof.
  split.
  - apply (proj1 (execute_query_errors catalogue_db "   " factors_only)).
    reflexivity.
  - apply (proj2 (proj2 (proj2 (execute_query_errors catalogue_db
                                  "SELECT * FROM students" factors_only)
                           eq_refl))
             (ExternalError "Catalog Error: Table does not exist!") factors_only).
    reflexivity.
Defined.

(** ** Further properties of the KPI recipes *)

Module RecipeFacts.

Import KPICalculator.

Lemma append_assoc (a b c : string) : (a ++ b) ++ c = a ++ b ++ c.
Proof. induction a as [|x a IH]; simpl; [reflexivity | now rewrite IH]. Qed.

Lemma habits_statement_eq {rt : PyRuntime} (k : kpi) (filters : filters_t) :
  habits_statement k filters =
  statement filters (habits_query k) (habits_columns k) (habits_tail k).
Proof. now destruct k. Qed.

Lemma factors_statement_eq {rt : PyRuntime} (k : kpi) (filters : filters_t) :
  factors_statement k filters =
  statement filters (factors_query k) (factors_columns k) (factors_tail k).
Proof. now destruct k. Qed.

Lemma calculate_kpi_eq {rt : PyRuntime} {db : DuckDB} (k : kpi)
  (filters : filters_t) :
  calculate_kpi k filters =
  two_phase (kpi_number k) filters
    (habits_query k) (habits_columns k) (habits_tail k)
    (factors_query k) (factors_columns k) (factors_tail k).
Proof. now destruct k. Qed.

Lemma queries_have_nonspace (k : kpi) :
  has_nonspace (habits_query k) = true /\ has_nonspace (factors_query k) = true.
Proof. now destruct k. Qed.

(** An entry without predicate can be removed from the specification. *)
Lemma apply_without_silent_entry {rt : PyRuntime} (before after : filters_t)
  (key : string) (v : value) (base : string) (cols : option (list string)) :
  KPIFilters.entry_conditions key v cols = [] ->
  _apply_filters_to_query (before ++ (key, v) :: after)%list base cols =
  _apply_filters_to_query (before ++ after)%list base cols.
Proof.
  intros H.
  assert (E : KPIFilters.conditions (before ++ (key, v) :: after)%list cols
              = KPIFilters.conditions (before ++ after)%list cols).
  { unfold KPIFilters.conditions.
    change ((key, v) :: after) with ([(key, v)] ++ after)%list.
    rewrite !flat_map_app. simpl. now rewrite H. }
  unfold _apply_filters_to_query. rewrite E.
  destruct before as [|x before]; simpl; [|reflexivity].
  destruct after as [|y after]; reflexivity.
Qed.

Lemma prefix_app_right (p h t : string) :
  prefix p h = true -> prefix p (h ++ t) = true.
Proof.
  revert h. induction p as [|c p IH]; intros h H.
  - apply prefix_empty.
  - destruct h as [|d h]; simpl in *; [discriminate|].
    destruct (ascii_dec c d); [now apply IH | discriminate].
Qed.

Lemma contains_app_right (needle h t : string) :
  contains needle h = true -> contains needle (h ++ t) = true.
Proof.
  induction h as [|d h IH]; intros H;
    apply contains_cases in H as [H|(c & rest & E & H)].
  - apply contains_prefix. now apply prefix_app_right.
  - discriminate.
  - apply contains_prefix. now apply prefix_app_right.
  - injection E as <- <-.
    change (String d h ++ t) with (String d (h ++ t)).
    apply contains_tail. now apply IH.
Qed.

End RecipeFacts.

Import RecipeFacts.

(** Whatever the connection does, a KPI recipe that fails raises
    [RuntimeError("Failed to calculate KPI n: Query execution failed: ...")]
    with its own number and the engine's message: its statements are never
    blank, so no other exception can come out. *)
Theorem kpi_failures_are_runtime_errors (rt : PyRuntime) (db : DuckDB) (k : kpi)
  (filters : filters_t) (c : connection) :
  match fst (calculate_kpi k filters c) with
  | inl e =>
      exists engine_message,
        e = RuntimeError ("Failed to calculate KPI " ++ kpi_number k
                          ++ ": Query execution failed: " ++ engine_message)
  | inr _ => True
  end.
Proof.
  destruct (queries_have_nonspace k) as (Hh & Hf).
  rewrite calculate_kpi_eq. unfold two_phase, try_except, bind.
  rewrite (execute_query_runs _ c
             (statement_has_nonspace filters _ (habits_columns k) (habits_tail k) Hh)).
  destruct (execute (statement filters (habits_query k) (habits_columns k)
                       (habits_tail k)) c) as [[e|df] c'].
  - simpl. now exists (exn_str e).
  - destruct (df_empty df); [|exact I].
    rewrite (execute_query_runs _ c'
               (statement_has_nonspace filters _ (factors_columns k)
                  (factors_tail k) Hf)).
    destruct (execute (statement filters (factors_query k) (factors_columns k)
                         (factors_tail k)) c') as [[e|df'] c''].
    + simpl. now exists (exn_str e).
    + exact I.
Qed.

(** In every recipe the filter clause lands between the literal and the
    grouping and ordering tail.  The literal of KPI 1 holds no [WHERE], so its
    clause is introduced by [WHERE]; the literals of KPI 2, 3 and 4 end in a
    [WHERE ... IS NOT NULL] part, so theirs is appended with [AND]; this holds
    for the habits and for the factors statement, and without predicates the
    statement is the literal followed by the tail. *)
Theorem recipe_statement_shape (rt : PyRuntime) (k : kpi) (filters : filters_t) :
  let keyword := match k with KPI1 => " WHERE " | _ => " AND " end in
  habits_statement k filters =
    match KPIFilters.conditions filters (Some (habits_columns k)) with
    | [] => habits_query k ++ habits_tail k
    | cs => habits_query k ++ keyword ++ join " AND " cs ++ habits_tail k
    end
  /\ factors_statement k filters =
       match KPIFilters.conditions filters (Some (factors_columns k)) with
       | [] => factors_query k ++ factors_tail k
       | cs => factors_query k ++ keyword ++ join " AND " cs ++ factors_tail k
       end.
Proof.
  cbv zeta. rewrite habits_statement_eq, factors_statement_eq.
  unfold statement, _apply_filters_to_query. split.
  - destruct (KPIFilters.conditions filters (Some (habits_columns k)))
      as [|p ps] eqn:E.
    + now destruct filters.
    + destruct filters as [|kv filters]; [discriminate|].
      destruct k; simpl contains; cbv iota; now rewrite !append_assoc.
  - destruct (KPIFilters.conditions filters (Some (factors_columns k)))
      as [|p ps] eqn:E.
    + now destruct filters.
    + destruct filters as [|kv filters]; [discriminate|].
      destruct k; simpl contains; cbv iota; now rewrite !append_assoc.
Qed.

(** The age entry never reaches the factors table: none of the four factors
    column lists holds a column equal to [age] up to case, so each factors
    statement is the same with and without the entry, whatever its value.  A
    [gender] entry does reach it, under the column's own spelling
    [Gender]. *)
Theorem fallback_ignores_age (rt : PyRuntime) (k : kpi)
  (before after : filters_t) (v : value) :
  factors_statement k (before ++ ("age", v) :: after)%list
    = factors_statement k (before ++ after)%list
  /\ (forall s, contains (quoted "Gender" ++ " = '" ++ s ++ "'")
                  (factors_statement k [("gender", VStr s)]) = true).
Proof.
  split.
  - rewrite !factors_statement_eq. unfold statement. f_equal.
    apply apply_without_silent_entry.
    unfold KPIFilters.entry_conditions.
    destruct (is_none v); [reflexivity|]. now destruct k.
  - intros s. rewrite factors_statement_eq. unfold statement.
    apply contains_app_right.
    rewrite (apply_single "gender" (VStr s) _ _
               (quoted "Gender" ++ " = '" ++ s ++ "'")) by now destruct k.
    apply contains_app_left, contains_suffix.
Qed.

(** ** Further properties of the two builders *)

Module BuilderFacts.

Import FilterEngine.

Lemma is_empty_app_left (a b : string) :
  is_empty a = false -> is_empty (a ++ b) = false.
Proof. now destruct a. Qed.

Lemma is_empty_after (a : string) (c : ascii) (b : string) :
  is_empty (a ++ String c b) = false.
Proof. now destruct a. Qed.

Section WithRuntime.
Context {rt : PyRuntime}.

(** Every predicate of the general builder holds at least its operator. *)
Lemma entry_conditions_nonempty (key : string) (v : value) (p : string) :
  In p (entry_conditions key v) -> is_empty p = false.
Proof.
  unfold entry_conditions, select_arm.
  destruct v as [[|s|[b|z|f]]|[|x l]|[|lo [|hi [|y t]]]]; simpl;
    try contradiction; intros [<-|[]]; apply is_empty_after.
Qed.

Lemma conditions_nonempty (filters : filters_t) (p : string) :
  In p (conditions filters) -> is_empty p = false.
Proof.
  unfold conditions. intros H. apply in_flat_map in H as ([key v] & _ & H).
  now apply (entry_conditions_nonempty key v).
Qed.

Lemma join_nonempty (sep p : string) (ps : list string) :
  is_empty p = false -> is_empty (join sep (p :: ps)) = false.
Proof.
  intros H. unfold join. simpl. destruct ps; [exact H|].
  now apply is_empty_app_left.
Qed.

(** What one entry contributes once the specification passed validation:
    nothing for [None], one predicate otherwise. *)
Lemma validated_entry (key : string) (v : value) :
  entry_errors key v = [] ->
  List.length (entry_conditions key v) = if is_none v then 0%nat else 1%nat.
Proof.
  unfold entry_errors, entry_conditions, select_arm.
  destruct v as [[|s|[b|z|f]]|[|x l]|[|lo [|hi [|y t]]]]; simpl;
    try reflexivity; try discriminate.
Qed.

End WithRuntime.

Lemma no_errors_entrywise (filters : filters_t) :
  fst (validate_filters filters) = true ->
  forall key v, In (key, v) filters -> entry_errors key v = [].
Proof.
  unfold validate_filters. simpl. intros H key v Hin.
  destruct (entry_errors key v) as [|e es] eqn:E; [reflexivity|].
  assert (Hmem : In e (flat_map (fun kv => entry_errors (fst kv) (snd kv)) filters)).
  { apply in_flat_map. exists (key, v). split; [exact Hin|]. simpl. rewrite E. now left. }
  destruct (flat_map _ filters); [contradiction | discriminate].
Qed.

End BuilderFacts.

Import BuilderFacts.

(** The KPI-path injector has no arm for lists and none for ranges under
    another key than [age]: a list value, a tuple under any key but the exact
    text [age], and a tuple that is not a pair contribute no predicate,
    whatever the known columns, and even when the key resolves to the column
    [age].  The general builder writes [IN (...)] for the same non-empty list
    and [BETWEEN] for the same pair. *)
Theorem kpi_injector_drops_lists_and_ranges (rt : PyRuntime) (key : string)
  (cols : option (list string)) :
  (forall l, KPIFilters.entry_conditions key (VList l) cols = [])
  /\ (forall t, key <> "age" -> KPIFilters.entry_conditions key (VTuple t) cols = [])
  /\ (forall t, List.length t <> 2%nat ->
        KPIFilters.entry_conditions key (VTuple t) cols = [])
  /\ (forall x l, FilterEngine.entry_conditions key (VList (x :: l)) =
        [key ++ " IN (" ++ join ", " (map list_item (x :: l)) ++ ")"])
  /\ (forall lo hi, FilterEngine.entry_conditions key (VRange lo hi) =
        [key ++ " BETWEEN " ++ str_num lo ++ " AND " ++ str_num hi]).
Proof.
  split; [|split; [|split; [|split]]].
  - intros l. unfold KPIFilters.entry_conditions. simpl.
    destruct (resolve_column key cols); [|reflexivity].
    unfold condition_for. simpl. now rewrite andb_false_r.
  - intros t Hkey. unfold KPIFilters.entry_conditions. simpl.
    destruct (resolve_column key cols); [|reflexivity].
    unfold condition_for. apply String.eqb_neq in Hkey. now rewrite Hkey.
  - intros t Hlen. unfold KPIFilters.entry_conditions. simpl.
    destruct (resolve_column key cols); [|reflexivity].
    unfold condition_for. simpl.
    apply Nat.eqb_neq in Hlen. rewrite Hlen. now rewrite andb_false_r.
  - reflexivity.
  - reflexivity.
Qed.

Lemma kpi_injector_drops_lists_and_ranges_witness :
  resolve_column "Age" (Some ["age"; "gender"]) = Some "age"
  /\ _apply_filters_to_query (rt := sample_runtime)
       [("Age", VRange (NInt 18) (NInt 25)); ("gender", VList [AStr "Male"])]
       "SELECT * FROM students" (Some ["age"; "gender"])
     = "SELECT * FROM students".
Proof.
  pose proof (kpi_injector_drops_lists_and_ranges sample_runtime "Age"
                (Some ["age"; "gender"])) as (_ & Hrange & _).
  pose proof (kpi_injector_drops_lists_and_ranges sample_runtime "gender"
                (Some ["age"; "gender"])) as (Hlist & _).
  split; [reflexivity|].
  unfold _apply_filters_to_query, KPIFilters.conditions.
  cbn [flat_map fst snd].
  change (VRange (NInt 18) (NInt 25)) with (VTuple [NInt 18; NInt 25]).
  rewrite (Hrange [NInt 18; NInt 25]) by discriminate.
  rewrite (Hlist [AStr "Male"]). reflexivity.
Defined.

(** A specification that [validate_filters] accepts loses nothing in the
    general builder: every entry whose value is not [None] yields exactly one
    predicate, in the order of the entries. *)
Theorem validated_filters_lose_nothing (rt : PyRuntime) (filters : filters_t) :
  fst (validate_filters filters) = true ->
  List.length (FilterEngine.conditions filters) =
  List.length (filter (fun kv => negb (is_none (snd kv))) filters).
Proof.
  intros H. pose proof (no_errors_entrywise filters H) as Hall. clear H.
  induction filters as [|[key v] filters IH]; [reflexivity|].
  unfold FilterEngine.conditions. simpl. rewrite length_app.
  fold (FilterEngine.conditions filters).
  rewrite IH by (intros k w Hin; apply Hall; now right).
  rewrite (validated_entry key v) by (apply Hall; now left).
  now destruct (is_none v).
Qed.

Lemma validated_filters_lose_nothing_witness :
  List.length (FilterEngine.conditions (rt := sample_runtime)
                 [("gender", VList [AStr "Male"; AStr "Female"]);
                  ("age", VRange (NInt 18) (NInt 25));
                  ("note", VNone);
                  ("active", VBool true)]) = 3%nat.
Proof.
  apply (validated_filters_lose_nothing sample_runtime
           [("gender", VList [AStr "Male"; AStr "Female"]);
            ("age", VRange (NInt 18) (NInt 25));
            ("note", VNone);
            ("active", VBool true)]).
  reflexivity.
Defined.

(** [apply_filters] returns the base query untouched exactly when the
    specification yields no predicate, and otherwise appends [" WHERE "] or,
    when the upper-cased base query holds [WHERE], [" AND "], followed by the
    predicates joined with [" AND "]; in both cases the base query is a prefix
    of the result. *)
Theorem apply_filters_attaches (rt : PyRuntime) (base_query : string)
  (filters : filters_t) :
  (FilterEngine.conditions filters = [] ->
     apply_filters base_query filters = base_query)
  /\ (FilterEngine.conditions filters <> [] ->
      apply_filters base_query filters =
      base_query
      ++ (if contains "WHERE" (upper base_query) then " AND " else " WHERE ")
      ++ join " AND " (FilterEngine.conditions filters))
  /\ prefix base_query (apply_filters base_query filters) = true.
Proof.
  assert (Hnone : FilterEngine.conditions filters = [] ->
                  apply_filters base_query filters = base_query).
  { intros E. unfold apply_filters. rewrite build_filter_query_eq, E. reflexivity. }
  assert (Hsome : FilterEngine.conditions filters <> [] ->
                  apply_filters base_query filters =
                  base_query
                  ++ (if contains "WHERE" (upper base_query)
                      then " AND " else " WHERE ")
                  ++ join " AND " (FilterEngine.conditions filters)).
  { intros Hne. unfold apply_filters. rewrite build_filter_query_eq.
    destruct (FilterEngine.conditions filters) as [|p ps] eqn:E; [now elim Hne|].
    rewrite (join_nonempty " AND " p ps).
    - now destruct (contains "WHERE" (upper base_query)).
    - apply (conditions_nonempty filters). rewrite E. now left. }
  split; [exact Hnone|]. split; [exact Hsome|].
  destruct (FilterEngine.conditions filters) as [|p ps] eqn:E.
  - rewrite Hnone by reflexivity. apply prefix_refl.
  - rewrite Hsome by discriminate. apply prefix_app_right, prefix_refl.
Qed.

Lemma apply_filters_attaches_witness :
  apply_filters (rt := sample_runtime) "SELECT * FROM students WHERE age > 25"
    [("gender", VStr "Male")]
  = "SELECT * FROM students WHERE age > 25 AND gender = 'Male'"
  /\ apply_filters (rt := sample_runtime) "SELECT * FROM students"
       [("tags", VList [])]
     = "SELECT * FROM students".
Proof.
  split.
  - apply (proj1 (proj2 (apply_filters_attaches sample_runtime
                           "SELECT * FROM students WHERE age > 25"
                           [("gender", VStr "Male")]))).
    discriminate.
  - apply (proj1 (apply_filters_attaches sample_runtime "SELECT * FROM students"
                    [("tags", VList [])])).
    reflexivity.
Defined.

(** ** Catalog lookups and the body of an import *)

Module CatalogFacts.

Import DatabaseManager.

Lemma first_cells_some (rows : list (list atom)) :
  (forall row, In row rows -> row <> []) ->
  first_cells rows = Some (map (fun row => hd ANone row) rows).
Proof.
  induction rows as [|row rows IH]; intros H; [reflexivity|].
  destruct row as [|cell tl]; [now elim (H []); [left|]|].
  simpl. rewrite IH by (intros r Hr; apply H; now right). reflexivity.
Qed.

Lemma cell_is_true (table_name : string) (cell : atom) :
  cell_is table_name cell = true <-> cell = AStr table_name.
Proof.
  destruct cell as [|s|n]; simpl; try (split; [discriminate | discriminate]).
  rewrite String.eqb_eq. split; [now intros -> | now intros [= ->]].
Qed.

End CatalogFacts.

Import CatalogFacts.

(** [table_exists] is fail-safe: when the catalog listing raises, it answers
    [False] (and [get_available_tables], asked directly, raises
    [RuntimeError("Failed to retrieve table list: ...")]); when the listing
    returns rows, each with a cell, it answers [True] exactly when the first
    cell of some row is the name, compared exactly as text. *)
Theorem table_exists_is_fail_safe (db : DuckDB) (table_name : string)
  (c : connection) :
  (forall e c', execute tables_query c = (inl e, c') ->
     table_exists table_name c = (false, c')
     /\ get_available_tables c =
        (inl (RuntimeError ("Failed to retrieve table list: " ++ exn_str e)), c'))
  /\ (forall df c', execute tables_query c = (inr df, c') ->
        (forall row, In row (df_rows df) -> row <> []) ->
        snd (table_exists table_name c) = c'
        /\ (fst (table_exists table_name c) = true <->
            exists rest, In (AStr table_name :: rest) (df_rows df))).
Proof.
  split.
  - intros e c' He. unfold table_exists, get_available_tables, try_except, bind.
    rewrite He. split; reflexivity.
  - intros df c' He Hrows.
    unfold table_exists, get_available_tables, try_except, bind.
    rewrite He, (first_cells_some _ Hrows). simpl. split; [reflexivity|].
    rewrite existsb_exists. split.
    + intros (cell & Hin & Hcell). apply cell_is_true in Hcell. subst cell.
      apply in_map_iff in Hin as (row & Hhd & Hin).
      destruct row as [|x rest]; [now elim (Hrows [])|].
      simpl in Hhd. subst x. now exists rest.
    + intros (rest & Hin). exists (AStr table_name). split.
      * apply in_map_iff. now exists (AStr table_name :: rest).
      * now apply cell_is_true.
Qed.

Lemma table_exists_is_fail_safe_witness :
  table_exists (db := catalogue_db) "student_performance_factors" factors_only
    = (false, factors_only)
  /\ (fst (table_exists (db := listing_db) "students" ["students"; "scores"]) = true
      <-> exists rest,
            In (AStr "students" :: rest) [[AStr "students"]; [AStr "scores"]]).
Proof.
  split.
  - apply (proj1 (table_exists_is_fail_safe catalogue_db
                    "student_performance_factors" factors_only)
             (ExternalError "Catalog Error: Table does not exist!") factors_only).
    reflexivity.
  - apply (proj2 (table_exists_is_fail_safe listing_db "students"
                    ["students"; "scores"])
             {| df_columns := ["table_name"];
                df_rows := [[AStr "students"]; [AStr "scores"]] |}
             ["students"; "scores"]).
    + reflexivity.
    + intros row [<-|[<-|[]]]; discriminate.
Defined.

(** Past its two guards, [import_data] fails only with
    [RuntimeError("Failed to import data into table 'name': ...")].  Every
    [if_exists] other than [replace] behaves alike: [append] sends the same
    calls as [fail] and appends nothing.  In every mode, when the [CREATE
    TABLE] statement raises after the frame was registered (in [replace] mode
    after the [DROP] went through, in any other mode with no [DROP] sent),
    the import ends in the state that statement left: [unregister] is not
    called. *)
Theorem import_data_body (db : DuckDB) (df : DataFrame)
  (table_name if_exists : string) (c : connection) :
  df_empty df = false -> name_refused table_name = false ->
  (forall e, fst (import_data df table_name if_exists c) = inl e ->
     exists cause,
       e = RuntimeError ("Failed to import data into table '" ++ table_name
                         ++ "': " ++ cause))
  /\ ((if_exists =? "replace")%string = false ->
      import_data df table_name if_exists c = import_data df table_name "fail" c)
  /\ (forall c1 c2 c3 e,
        (if (if_exists =? "replace")%string
         then exists dropped,
                execute ("DROP TABLE IF EXISTS " ++ table_name) c = (inr dropped, c1)
         else c1 = c) ->
        register table_name df c1 = (inr tt, c2) ->
        execute ("CREATE TABLE " ++ table_name ++ " AS SELECT * FROM " ++ table_name) c2
          = (inl e, c3) ->
        import_data df table_name if_exists c =
        (inl (RuntimeError ("Failed to import data into table '" ++ table_name
                            ++ "': " ++ exn_str e)), c3))
  /\ (forall dropped c1 c2 c3 e,
        execute ("DROP TABLE IF EXISTS " ++ table_name) c = (inr dropped, c1) ->
        register table_name df c1 = (inr tt, c2) ->
        execute ("CREATE TABLE " ++ table_name ++ " AS SELECT * FROM " ++ table_name) c2
          = (inl e, c3) ->
        import_data df table_name "replace" c =
        (inl (RuntimeError ("Failed to import data into table '" ++ table_name
                            ++ "': " ++ exn_str e)), c3)).
Proof.
  intros Hdf Hname. unfold name_refused in Hname.
  split; [|split; [|split]].
  - intros e. unfold import_data. rewrite Hdf, Hname.
    unfold try_except, raise.
    match goal with
    | |- context [match ?m c with _ => _ end] => destruct (m c) as [[e'|u] c']
    end; simpl; [|discriminate].
    intros [= <-]. now exists (exn_str e').
  - intros Hx. unfold import_data. rewrite Hdf, Hname, Hx. reflexivity.
  - intros c1 c2 c3 e Hdrop Hreg Hcreate.
    unfold import_data. rewrite Hdf, Hname.
    destruct (if_exists =? "replace")%string.
    + destruct Hdrop as (dropped & Hdrop).
      unfold try_except, bind, ret, raise. cbv beta iota.
      rewrite Hdrop. cbv beta iota. rewrite Hreg. cbv beta iota.
      rewrite Hcreate. reflexivity.
    + subst c1. unfold try_except, bind, ret, raise. cbv beta iota.
      rewrite Hreg. cbv beta iota. rewrite Hcreate. reflexivity.
  - intros dropped c1 c2 c3 e Hdrop Hreg Hcreate.
    unfold import_data. rewrite Hdf, Hname, String.eqb_refl.
    unfold try_except, bind, ret, raise. cbv beta iota.
    rewrite Hdrop. cbv beta iota. rewrite Hreg. cbv beta iota.
    rewrite Hcreate. reflexivity.
Qed.

Lemma import_data_body_witness :
  import_data (db := catalogue_db) factors_frame "student_performance_factors"
    "append" []
  = import_data (db := catalogue_db) factors_frame "student_performance_factors"
      "fail" []
  /\ import_data (db := unregister_marks_db) factors_frame "students" "append" false
     = (inl (RuntimeError
               "Failed to import data into table 'students': Catalog Error: Table with name students already exists!"),
        false).
Proof.
  split.
  - apply (proj1 (proj2 (import_data_body catalogue_db factors_frame
                           "student_performance_factors" "append" []
                           eq_refl eq_refl))).
    reflexivity.
  - apply (proj1 (proj2 (proj2 (import_data_body unregister_marks_db factors_frame
                                  "students" "append" false eq_refl eq_refl)))
             false false false
             (ExternalError "Catalog Error: Table with name students already exists!"));
      reflexivity.
Defined.

(** ** Further properties of file_manager.py *)

Module FileManagerFacts.

Import FileManager Strings.Byte.

Lemma normalize_char_settled (c : ascii) :
  (if Ascii.eqb (lower_char c) " " then settled "_" else settled (lower_char c))
  = true.
Proof. destruct c as [[] [] [] [] [] [] [] []]; reflexivity. Qed.

Lemma normalize_name_settled (col : string) :
  all_chars settled (normalize_name col) = true.
Proof.
  unfold normalize_name, lower. induction col as [|c col IH]; [reflexivity|].
  simpl. pose proof (normalize_char_settled c) as Hc.
  destruct (Ascii.eqb (lower_char c) " "); simpl.
  - exact IH.
  - rewrite Hc. exact IH.
Qed.

Lemma settled_fixed (col : string) :
  all_chars settled col = true -> normalize_name col = col.
Proof.
  unfold normalize_name, lower. induction col as [|c col IH]; [reflexivity|].
  simpl. intros H. apply andb_true_iff in H as [Hc Hcol].
  unfold settled in Hc. apply andb_true_iff in Hc as [Hspace Hlow].
  apply Ascii.eqb_eq in Hlow. rewrite Hlow.
  apply negb_true_iff in Hspace. rewrite Hspace. now rewrite (IH Hcol).
Qed.

Lemma filter_nil_iff {A : Type} (f : A -> bool) (l : list A) :
  filter f l = [] <-> (forall x, In x l -> f x = false).
Proof.
  induction l as [|a l IH]; simpl.
  - split; [intros _ x [] | reflexivity].
  - destruct (f a) eqn:E.
    + split; [discriminate|]. intros H. rewrite (H a) in E by now left. discriminate.
    + rewrite IH. split.
      * intros H x [<-|Hin]; [exact E | now apply H].
      * intros H x Hin. apply H. now right.
Qed.

Lemma found_in_lowered (r : string) (cols : list string) :
  existsb (String.eqb (lower r)) (map lower cols) = true <->
  exists col, In col cols /\ lower col = lower r.
Proof.
  rewrite existsb_exists. split.
  - intros (x & Hin & Hx). apply String.eqb_eq in Hx.
    apply in_map_iff in Hin as (col & Hcol & Hin). exists col. split; [exact Hin|].
    now rewrite Hcol.
  - intros (col & Hin & Hcol). exists (lower col). split.
    + now apply in_map.
    + apply String.eqb_eq. now rewrite Hcol.
Qed.

End FileManagerFacts.

Import FileManager FileManagerFacts.

(** [normalize_column_names] brings labels to a normal form: applying it
    twice is applying it once, no label keeps a space or a character that
    [str.lower] would change, and the rows and the number of columns are
    untouched.  It does not keep labels apart: the distinct labels [A b] and
    [a_b] both become [a_b]. *)
Theorem normalize_column_names_normal_form (df : DataFrame) :
  normalize_column_names (normalize_column_names df) = normalize_column_names df
  /\ (forall col, In col (df_columns (normalize_column_names df)) ->
        all_chars settled col = true)
  /\ List.length (df_columns (normalize_column_names df))
       = List.length (df_columns df)
  /\ df_rows (normalize_column_names df) = df_rows df
  /\ (NoDup ["A b"; "a_b"]
      /\ df_columns (normalize_column_names
                       {| df_columns := ["A b"; "a_b"]; df_rows := [] |})
         = ["a_b"; "a_b"]).
Proof.
  assert (Hsettled : forall col, In col (df_columns (normalize_column_names df)) ->
                                 all_chars settled col = true).
  { intros col Hin. unfold normalize_column_names in Hin. simpl in Hin.
    apply in_map_iff in Hin as (c0 & <- & _). apply normalize_name_settled. }
  split; [|split; [exact Hsettled|split; [|split; [reflexivity|]]]].
  - unfold normalize_column_names. simpl. f_equal.
    rewrite map_map. apply map_ext. intros col.
    apply (settled_fixed (normalize_name col) (normalize_name_settled col)).
  - unfold normalize_column_names. simpl. apply length_map.
  - split; [|reflexivity].
    constructor; [intros [E|[]]; discriminate|]. constructor; [intros []|constructor].
Qed.

(** [validate_csv_structure] never raises: text that does not parse gives
    [(False, "Failed to parse CSV file: ...")].  On a parsed frame it accepts
    exactly when every required column equals some column of the frame up to
    letter case, with an empty message; the KPI-path injector then resolves
    each required name against the frame's columns. *)
Theorem validate_csv_structure_accepts (pd : Pandas) (file_content : string)
  (required_columns : list string) :
  (forall e, read_csv file_content = inl e ->
     validate_csv_structure file_content required_columns =
     (false, "Failed to parse CSV file: " ++ exn_str e))
  /\ (forall df, read_csv file_content = inr df ->
        (fst (validate_csv_structure file_content required_columns) = true <->
         forall r, In r required_columns ->
           exists col, In col (df_columns df) /\ lower col = lower r)
        /\ (fst (validate_csv_structure file_content required_columns) = true ->
            snd (validate_csv_structure file_content required_columns) = ""
            /\ forall r, In r required_columns ->
                 exists col, resolve_column r (Some (df_columns df)) = Some col
                             /\ In col (df_columns df))).
Proof.
  split.
  - intros e He. unfold validate_csv_structure. now rewrite He.
  - intros df Hdf.
    assert (Hiff : fst (validate_csv_structure file_content required_columns) = true <->
                   forall r, In r required_columns ->
                     exists col, In col (df_columns df) /\ lower col = lower r).
    { unfold validate_csv_structure. rewrite Hdf.
      destruct (filter _ (map lower required_columns)) as [|m ms] eqn:E; simpl.
      - split; [|reflexivity]. intros _ r Hr.
        apply found_in_lowered.
        pose proof (proj1 (filter_nil_iff _ _) E (lower r) (in_map lower _ _ Hr)) as H.
        now apply negb_false_iff in H.
      - split; [discriminate|]. intros H.
        assert (Hm : In m (m :: ms)) by now left.
        rewrite <- E in Hm. apply filter_In in Hm as (Hin & Hneg).
        apply in_map_iff in Hin as (r & <- & Hr).
        apply negb_true_iff in Hneg.
        rewrite (proj2 (found_in_lowered r (df_columns df)) (H r Hr)) in Hneg.
        discriminate. }
    split; [exact Hiff|]. intros Hok. split.
    + revert Hok. unfold validate_csv_structure. rewrite Hdf.
      now destruct (filter _ (map lower required_columns)).
    + intros r Hr. destruct (proj1 Hiff Hok r Hr) as (col & Hin & Hcol).
      destruct (first_match_complete r (df_columns df) col Hin Hcol) as (col' & Hm).
      exists col'. split.
      * rewrite resolve_column_nonempty; [exact Hm|]. now destruct (df_columns df).
      * now apply (first_match_sound r (df_columns df) col').
Qed.

Lemma validate_csv_structure_accepts_witness :
  fst (validate_csv_structure (pd := reads_as factors_frame) "Gender,Exam_Score"
         ["gender"; "exam_score"]) = true <->
  forall r, In r ["gender"; "exam_score"] ->
    exists col, In col (df_columns factors_frame) /\ lower col = lower r.
Proof.
  apply (proj1 (proj2 (validate_csv_structure_accepts (reads_as factors_frame)
                         "Gender,Exam_Score" ["gender"; "exam_score"])
                  factors_frame eq_refl)).
Defined.

(** [validate_csv_not_empty] accepts exactly the frames that are not
    [df.empty].  So a frame it accepted is never refused by [import_data] under
    the two table names the application uses: whatever the import raises then
    is not a [ValueError]. *)
Theorem accepted_frames_pass_import_guards (db : DuckDB) (df : DataFrame)
  (if_exists : string) (c : connection) :
  fst (validate_csv_not_empty df) = negb (df_empty df)
  /\ (fst (validate_csv_not_empty df) = true ->
      forall table_name msg,
        table_name = "student_habits_performance"
        \/ table_name = "student_performance_factors" ->
        fst (import_data df table_name if_exists c) <> inl (ValueError msg)).
Proof.
  assert (E : fst (validate_csv_not_empty df) = negb (df_empty df)).
  { unfold validate_csv_not_empty, df_empty.
    destruct (List.length (df_rows df) =? 0)%nat;
      destruct (List.length (df_columns df) =? 0)%nat; reflexivity. }
  split; [exact E|].
  intros Hok table_name msg Hname. rewrite E in Hok. apply negb_true_iff in Hok.
  apply import_data_checked; [exact Hok|].
  destruct Hname as [-> | ->]; reflexivity.
Qed.

Lemma accepted_frames_pass_import_guards_witness :
  fst (validate_csv_not_empty factors_frame) = true
  /\ (forall msg,
        fst (import_data (db := permissive_db) factors_frame
               "student_performance_factors" "replace" tt)
        <> inl (ValueError msg)).
Proof.
  split; [reflexivity|]. intros msg.
  apply (proj2 (accepted_frames_pass_import_guards permissive_db factors_frame
                  "replace" tt) eq_refl "student_performance_factors" msg).
  now right.
Defined.

(** ** What decoded text looks like *)

Module DecodingFacts.

Import FileManager Strings.Byte.

Lemma within_spec (lo hi n : N) :
  within lo hi n = true -> (lo <= n <= hi)%N.
Proof.
  unfold within. intros H. apply andb_true_iff in H as [H1 H2].
  split; now apply N.leb_le.
Qed.

Lemma continuation_spec (n : N) : is_continuation n = true -> (128 <= n <= 191)%N.
Proof. apply within_spec. Qed.

Lemma second_of_three_spec (lead n : N) :
  second_of_three lead n = true ->
  (128 <= n <= 191)%N
  /\ (lead = 224 -> 160 <= n)%N /\ (lead = 237 -> n <= 159)%N.
Proof.
  unfold second_of_three.
  destruct (N.eqb_spec lead 224) as [->|H1].
  - intros H. apply within_spec in H. lia.
  - destruct (N.eqb_spec lead 237) as [->|H2].
    + intros H. apply within_spec in H. lia.
    + intros H. apply continuation_spec in H. lia.
Qed.

Lemma second_of_four_spec (lead n : N) :
  second_of_four lead n = true ->
  (128 <= n <= 191)%N
  /\ (lead = 240 -> 144 <= n)%N /\ (lead = 244 -> n <= 143)%N.
Proof.
  unfold second_of_four.
  destruct (N.eqb_spec lead 240) as [->|H1].
  - intros H. apply within_spec in H. lia.
  - destruct (N.eqb_spec lead 244) as [->|H2].
    + intros H. apply within_spec in H. lia.
    + intros H. apply continuation_spec in H. lia.
Qed.

Lemma option_map_cons_some (x : N) (o : option text) (t : text) :
  option_map (cons x) o = Some t -> exists t', o = Some t' /\ t = x :: t'.
Proof.
  destruct o as [t'|]; simpl; [|discriminate].
  intros [= <-]. now exists t'.
Qed.

(** Strict UTF-8 yields scalar values, never more of them than bytes. *)
Lemma utf8_decode_shape (n : nat) :
  forall (bs : bytes) (t : text),
    (List.length bs <= n)%nat -> utf8_decode bs = Some t ->
    (List.length t <= List.length bs)%nat /\ Forall scalar t.
Proof.
  induction n as [|n IH]; intros bs t Hlen.
  - destruct bs; [|simpl in Hlen; lia]. intros [= <-]. split; [simpl; lia | constructor].
  - destruct bs as [|b0 r0]; [intros [= <-]; split; [simpl; lia | constructor]|].
    simpl in Hlen. cbn [utf8_decode].
    destruct (to_N b0 <? 128)%N eqn:E0.
    { intros H. apply option_map_cons_some in H as (t' & Hr & ->).
      destruct (IH r0 t' ltac:(lia) Hr) as (Hl & Hs).
      apply N.ltb_lt in E0.
      split; [simpl; lia | constructor; [unfold scalar; lia | exact Hs]]. }
    destruct r0 as [|b1 r1]; [discriminate|]. simpl in Hlen.
    destruct (within 194 223 (to_N b0)) eqn:E2.
    { destruct (is_continuation (to_N b1)) eqn:C1; [|discriminate].
      intros H. apply option_map_cons_some in H as (t' & Hr & ->).
      destruct (IH r1 t' ltac:(lia) Hr) as (Hl & Hs).
      apply within_spec in E2. apply continuation_spec in C1.
      split; [simpl; lia | constructor; [unfold scalar; lia | exact Hs]]. }
    destruct r1 as [|b2 r2]; [discriminate|]. simpl in Hlen.
    destruct (within 224 239 (to_N b0)) eqn:E3.
    { destruct (second_of_three (to_N b0) (to_N b1)) eqn:S1; [|discriminate].
      destruct (is_continuation (to_N b2)) eqn:C2; [|discriminate].
      simpl andb. cbv iota.
      intros H. apply option_map_cons_some in H as (t' & Hr & ->).
      destruct (IH r2 t' ltac:(lia) Hr) as (Hl & Hs).
      apply within_spec in E3. apply second_of_three_spec in S1.
      apply continuation_spec in C2.
      split; [simpl; lia | constructor; [unfold scalar; lia | exact Hs]]. }
    destruct r2 as [|b3 r3]; [discriminate|]. simpl in Hlen.
    destruct (within 240 244 (to_N b0)) eqn:E4; [|discriminate].
    destruct (second_of_four (to_N b0) (to_N b1)) eqn:S1; [|discriminate].
    destruct (is_continuation (to_N b2)) eqn:C2; [|discriminate].
    destruct (is_continuation (to_N b3)) eqn:C3; [|discriminate].
    simpl andb. cbv iota.
    intros H. apply option_map_cons_some in H as (t' & Hr & ->).
    destruct (IH r3 t' ltac:(lia) Hr) as (Hl & Hs).
    apply within_spec in E4. apply second_of_four_spec in S1.
    apply continuation_spec in C2. apply continuation_spec in C3.
    split; [simpl; lia | constructor; [unfold scalar; lia | exact Hs]].
Qed.

(** Bytes below 80 are read as themselves. *)
Lemma utf8_decode_ascii (bs : bytes) :
  Forall (fun b => (to_N b < 128)%N) bs -> utf8_decode bs = Some (map to_N bs).
Proof.
  induction 1 as [|b bs Hb _ IH]; [reflexivity|].
  cbn [utf8_decode]. apply N.ltb_lt in Hb. rewrite Hb, IH. reflexivity.
Qed.

Lemma latin1_scalar (bs : bytes) : Forall scalar (map to_N bs).
Proof.
  induction bs as [|b bs IH]; constructor; [|exact IH].
  pose proof (to_N_bounded b). unfold scalar. lia.
Qed.

(** The loop over the four codecs ends at UTF-8 or at Latin-1. *)
Lemma handle_encoding_error_eq (file_bytes : bytes) :
  handle_encoding_error file_bytes =
  inr (match utf8_decode file_bytes with
       | Some t => t
       | None => map to_N file_bytes
       end).
Proof.
  unfold handle_encoding_error, encodings. simpl.
  now destruct (utf8_decode file_bytes).
Qed.

End DecodingFacts.

Import DecodingFacts.

(** The text [handle_encoding_error] returns never has more code points than
    the input has bytes, and holds only Unicode scalar values (at most
    U+10FFFF, no surrogate).  Input made of bytes below 80 comes back byte for
    byte; input that is not valid UTF-8 comes back byte for byte as well, so a
    byte 80..9F of a Windows-1252 file is read as the control character of the
    same number, never as the character code page 1252 assigns. *)
Theorem decoded_text_shape (file_bytes : bytes) (t : text) :
  handle_encoding_error file_bytes = inr t ->
  (List.length t <= List.length file_bytes)%nat
  /\ Forall scalar t
  /\ (Forall (fun b => (Strings.Byte.to_N b < 128)%N) file_bytes ->
      t = map Strings.Byte.to_N file_bytes)
  /\ (utf8_decode file_bytes = None -> t = map Strings.Byte.to_N file_bytes).
Proof.
  rewrite handle_encoding_error_eq. intros [= <-].
  destruct (utf8_decode file_bytes) as [u|] eqn:E.
  - destruct (utf8_decode_shape (List.length file_bytes) file_bytes u
                (Nat.le_refl _) E) as (Hl & Hs).
    repeat split; try assumption.
    + intros Hascii. rewrite (utf8_decode_ascii file_bytes Hascii) in E.
      now injection E.
    + discriminate.
  - repeat split.
    + now rewrite length_map.
    + apply latin1_scalar.
Qed.

Lemma decoded_text_shape_witness :
  (List.length [8364%N; 65%N] <= List.length [Byte.xe2; Byte.x82;
                                               Byte.xac; Byte.x41])%nat
  /\ Forall scalar [8364%N; 65%N]
  /\ handle_encoding_error [Byte.x80; Byte.x41] = inr [128%N; 65%N].
Proof.
  pose proof (decoded_text_shape
                [Byte.xe2; Byte.x82; Byte.xac; Byte.x41]
                [8364%N; 65%N] eq_refl) as (Hl & Hs & _).
  split; [exact Hl|]. split; [exact Hs|]. reflexivity.
Defined.
